(** * Token issuance and verification of the Digital Library API

    A shallow embedding of [make_token] and [parse_token] of [main.py],
    together with the Python built-ins they call ([str.split], [int],
    the formatting of an [int], [str.encode], [hashlib.sha256] and
    [datetime.timestamp]).

    Modelling choices.
    - A Python [str] is modelled by the string of its UTF-8 bytes, so that
      [str.encode()] is the identity on the bytes.  A [str] holding a lone
      surrogate has no such encoding and is outside the model.
    - [int(s)] is modelled on ASCII input: blanks around the literal, an
      optional sign, decimal digits with single underscores between them.
      CPython also reads non-ASCII decimal digits and blanks, and refuses
      literals of more than [sys.get_int_max_str_digits()] digits (4300 by
      default).  So [Py.int] is CPython's [int] when it reads a literal of
      at most 4300 digits, and when it refuses ASCII text; a theorem that
      rests on what [int] makes of an arbitrary field says so in its
      hypotheses ([digit_count], [is_ascii]).
    - [datetime.now(timezone.utc)] is an input of both functions: the clock
      reading in microseconds since the epoch, the resolution of a [datetime].
      [int(d.timestamp())] truncates it to whole seconds.
    - [SECRET] is read once from the environment; it is a parameter here.
    - A handler is a program that calls [bson.ObjectId], the database [db]
      and [create_document] (of [database.py]); a run of it is the list of
      these calls with the answers it received, and its outcome.  What the
      database does is not modelled: the properties hold for all answers.
      A run ([runs]) is an execution in which every call to the database
      returns.  When the driver raises instead, a handler with no [try]
      around the call ends there with the driver's exception; [executes]
      has these executions too, with the calls that returned before.  The
      driver's exception is taken to be no [HTTPException].  The properties
      of [register], [login], [borrow_book], [add_review], [search_books]
      and [list_reviews] are stated over [executes]; none says that a
      handler cannot fail with an exception of the driver.
      A document read from the database carries its [_id] as an [ObjectId],
      given by its text. *)

From Stdlib Require Import ZArith List Ascii String Bool Lia.
Import ListNotations.

Local Open Scope list_scope.
Local Open Scope string_scope.

(** ** SHA-256 (FIPS 180-4), as computed by [hashlib.sha256] *)

Module SHA256.

Local Open Scope list_scope.
Local Open Scope Z_scope.

Definition w32 (x : Z) : Z := x mod 2 ^ 32.

Definition add32 (x y : Z) : Z := w32 (x + y).

Definition rotr (n x : Z) : Z :=
  Z.lor (Z.shiftr x n) (w32 (Z.shiftl x (32 - n))).

Definition xor3 (a b c : Z) : Z := Z.lxor (Z.lxor a b) c.

Definition Ch (x y z : Z) : Z :=
  Z.lxor (Z.land x y) (Z.land (Z.lxor x (2 ^ 32 - 1)) z).

Definition Maj (x y z : Z) : Z :=
  xor3 (Z.land x y) (Z.land x z) (Z.land y z).

Definition Sigma0 (x : Z) : Z := xor3 (rotr 2 x) (rotr 13 x) (rotr 22 x).
Definition Sigma1 (x : Z) : Z := xor3 (rotr 6 x) (rotr 11 x) (rotr 25 x).
Definition sigma0 (x : Z) : Z := xor3 (rotr 7 x) (rotr 18 x) (Z.shiftr x 3).
Definition sigma1 (x : Z) : Z := xor3 (rotr 17 x) (rotr 19 x) (Z.shiftr x 10).

(** The constants are defined the way the standard defines them: the first
    32 bits of the fractional parts of the square roots (initial hash
    value) and cube roots (round constants) of the first primes. *)

Definition is_prime (p : Z) : bool :=
  (1 <? p) &&
  forallb (fun d => negb (p mod d =? 0) || (p <=? d))
          (map Z.of_nat (seq 2 (Z.to_nat p))).

Definition primes (n : nat) : list Z :=
  firstn n (filter is_prime (map Z.of_nat (seq 2 400))).

(** Largest [r] below [2 ^ bits] (on top of [r0]) with [r ^ 3 <= n]. *)
Fixpoint cbrt_bits (bits : nat) (n r0 : Z) : Z :=
  match bits with
  | O => r0
  | S b =>
      let r1 := r0 + 2 ^ Z.of_nat b in
      cbrt_bits b n (if r1 * r1 * r1 <=? n then r1 else r0)
  end.

Definition frac_sqrt32 (p : Z) : Z := w32 (Z.sqrt (p * 2 ^ 64)).
Definition frac_cbrt32 (p : Z) : Z := w32 (cbrt_bits 40 (p * 2 ^ 96) 0).

Definition H0 : list Z := Eval vm_compute in map frac_sqrt32 (primes 8).
Definition K : list Z := Eval vm_compute in map frac_cbrt32 (primes 64).

(** Padding: a bit 1, zeros up to 56 modulo 64 bytes, then the length of the
    message in bits as a 64-bit big-endian integer. *)

Fixpoint be_bytes (n : nat) (x : Z) : list Z :=
  match n with
  | O => []
  | S k => (Z.shiftr x (8 * Z.of_nat k)) mod 256 :: be_bytes k x
  end.

Definition pad (msg : list Z) : list Z :=
  let l := Z.of_nat (List.length msg) in
  let k := (55 - l) mod 64 in
  msg ++ 128 :: repeat 0 (Z.to_nat k) ++ be_bytes 8 (8 * l).

Fixpoint be_word (bs : list Z) (acc : Z) : Z :=
  match bs with
  | [] => acc
  | b :: r => be_word r (acc * 256 + b)
  end.

(** [n] big-endian 32-bit words off the front of [bs]. *)
Fixpoint words (n : nat) (bs : list Z) : list Z :=
  match n with
  | O => []
  | S k => be_word (firstn 4 bs) 0 :: words k (skipn 4 bs)
  end.

(** The message schedule, most recent word first: [recent] holds
    W(t-1), W(t-2), ..., W(0). *)
Fixpoint schedule (n : nat) (recent : list Z) : list Z :=
  match n with
  | O => recent
  | S k =>
      let wt := add32 (add32 (sigma1 (nth 1 recent 0)) (nth 6 recent 0))
                      (add32 (sigma0 (nth 14 recent 0)) (nth 15 recent 0)) in
      schedule k (wt :: recent)
  end.

Record regs := Regs { ra : Z; rb : Z; rc : Z; rd : Z;
                      re : Z; rf : Z; rg : Z; rh : Z }.

Definition round (s : regs) (kw : Z * Z) : regs :=
  let '(k, w) := kw in
  let t1 := add32 (add32 (add32 (rh s) (Sigma1 (re s)))
                         (add32 (Ch (re s) (rf s) (rg s)) k)) w in
  let t2 := add32 (Sigma0 (ra s)) (Maj (ra s) (rb s) (rc s)) in
  Regs (add32 t1 t2) (ra s) (rb s) (rc s) (add32 (rd s) t1) (re s) (rf s) (rg s).

Definition regs_of (h : list Z) : regs :=
  Regs (nth 0 h 0) (nth 1 h 0) (nth 2 h 0) (nth 3 h 0)
       (nth 4 h 0) (nth 5 h 0) (nth 6 h 0) (nth 7 h 0).

Definition list_of (s : regs) : list Z :=
  [ra s; rb s; rc s; rd s; re s; rf s; rg s; rh s].

Definition compress (h : list Z) (block : list Z) : list Z :=
  let w := rev (schedule 48 (rev (words 16 block))) in
  let s := fold_left round (combine K w) (regs_of h) in
  map (fun p => add32 (fst p) (snd p)) (combine h (list_of s)).

Fixpoint blocks (n : nat) (h : list Z) (bs : list Z) : list Z :=
  match n with
  | O => h
  | S k => blocks k (compress h (firstn 64 bs)) (skipn 64 bs)
  end.

(** The digest: eight 32-bit words. *)
Definition digest (msg : list Z) : list Z :=
  let p := pad msg in
  blocks (List.length p / 64) H0 p.

End SHA256.

(** ** The Python built-ins used by the token functions *)

Module Py.

(** Exceptions raised inside [parse_token]; both are instances of
    [Exception]. *)
Inductive exn : Type :=
| ValueError_unpack   (* wrong number of values to unpack *)
| ValueError_int.     (* invalid literal for int() with base 10 *)

Inductive result (A : Type) : Type :=
| Return (a : A)
| Raise (e : exn).

Arguments Return {A} a.
Arguments Raise {A} e.

Definition bind {A B : Type} (m : result A) (k : A -> result B) : result B :=
  match m with
  | Return a => k a
  | Raise e => Raise e
  end.

(** [s.encode()]: the bytes of the string. *)
Definition encode (s : string) : list Z :=
  map (fun c => Z.of_N (N_of_ascii c)) (list_ascii_of_string s).

(** *** [bytes.hex]: two lower-case hexadecimal digits per byte *)

Definition hex_digit (n : Z) : ascii :=
  match (n mod 16)%Z with
  | 0%Z => "0" | 1%Z => "1" | 2%Z => "2" | 3%Z => "3"
  | 4%Z => "4" | 5%Z => "5" | 6%Z => "6" | 7%Z => "7"
  | 8%Z => "8" | 9%Z => "9" | 10%Z => "a" | 11%Z => "b"
  | 12%Z => "c" | 13%Z => "d" | 14%Z => "e" | _ => "f"
  end%char.

(** The [n] low hexadecimal digits of [x], most significant first. *)
Fixpoint hex_word (n : nat) (x : Z) : string :=
  match n with
  | O => ""
  | S k => String (hex_digit (Z.shiftr x (4 * Z.of_nat k))) (hex_word k x)
  end.

Fixpoint hex_words (ws : list Z) : string :=
  match ws with
  | [] => ""
  | w :: r => hex_word 8 w ++ hex_words r
  end.

(** [hashlib.sha256(s.encode()).hexdigest()] *)
Definition sha256_hexdigest (s : string) : string :=
  hex_words (SHA256.digest (encode s)).

(** *** [s.split(sep)] for a one-character separator *)

Fixpoint split (sep : ascii) (s : string) : list string :=
  match s with
  | "" => [""]
  | String c r =>
      if Ascii.eqb c sep then "" :: split sep r
      else match split sep r with
           | h :: t => String c h :: t
           | [] => [String c ""]
           end
  end.

(** [a, b, c = l]: unpacking into exactly three names. *)
Definition unpack3 (l : list string) : result (string * string * string) :=
  match l with
  | [a; b; c] => Return (a, b, c)
  | _ => Raise ValueError_unpack
  end.

(** *** The decimal text of an [int], as [str] and f-strings produce it *)

Definition digit_char (d : Z) : ascii :=
  match d with
  | 0%Z => "0" | 1%Z => "1" | 2%Z => "2" | 3%Z => "3" | 4%Z => "4"
  | 5%Z => "5" | 6%Z => "6" | 7%Z => "7" | 8%Z => "8" | _ => "9"
  end%char.

(** The digits of [n >= 0] in front of [acc]; [fuel] bounds their number. *)
Fixpoint str_digits (fuel : nat) (n : Z) (acc : string) : string :=
  match fuel with
  | O => acc
  | S f =>
      let acc' := String (digit_char (n mod 10)) acc in
      if (n <? 10)%Z then acc' else str_digits f (n / 10) acc'
  end.

Definition str (z : Z) : string :=
  let fuel := S (Z.to_nat (Z.log2 (Z.abs z))) in
  if (z <? 0)%Z then String "-" (str_digits fuel (- z) "")
  else str_digits fuel z "".

(** *** [int(s)] on a string

    ASCII only, and without the limit on the number of digits: this is
    CPython's [int] on the strings it reads with at most 4300 digits, and
    on the ASCII strings it refuses. *)

Definition isspace (c : ascii) : bool :=
  let n := N_of_ascii c in
  ((9 <=? n) && (n <=? 13) || (n =? 32))%N.

Definition digit_val (c : ascii) : option Z :=
  let n := Z.of_N (N_of_ascii c) in
  if ((48 <=? n) && (n <=? 57))%Z then Some (n - 48)%Z else None.

Fixpoint lstrip (s : string) : string :=
  match s with
  | "" => ""
  | String c r => if isspace c then lstrip r else s
  end.

Fixpoint rstrip (s : string) : string :=
  match s with
  | "" => ""
  | String c r =>
      match rstrip r with
      | "" => if isspace c then "" else String c ""
      | r' => String c r'
      end
  end.

(** What may follow a digit: further digits, each preceded by at most one
    underscore.  [acc] is the value read so far. *)
Fixpoint digits_tail (s : string) (acc : Z) : option Z :=
  match s with
  | "" => Some acc
  | String c r =>
      match digit_val c with
      | Some d => digits_tail r (10 * acc + d)
      | None =>
          if Ascii.eqb c "_" then
            match r with
            | String c' r' =>
                match digit_val c' with
                | Some d => digits_tail r' (10 * acc + d)
                | None => None
                end
            | "" => None
            end
          else None
      end
  end.

Definition digits (s : string) : option Z :=
  match s with
  | String c r =>
      match digit_val c with
      | Some d => digits_tail r d
      | None => None
      end
  | "" => None
  end.

(** An optional sign, then the digits. *)
Definition signed (body : string) : option Z :=
  match body with
  | String "-" r => option_map Z.opp (digits r)
  | String "+" r => digits r
  | _ => digits body
  end.

Definition int (s : string) : result Z :=
  match signed (rstrip (lstrip s)) with
  | Some z => Return z
  | None => Raise ValueError_int
  end.

(** *** [datetime] values, in microseconds since the epoch *)

Definition datetime : Type := Z.

(** [timedelta(hours=h)] *)
Definition timedelta_hours (h : Z) : Z := (h * 3600 * 1000000)%Z.

(** [int(d.timestamp())]: whole seconds, truncated toward zero.  The float
    that [timestamp] returns is exact enough for this as long as the
    reading is below [2 ^ 33] seconds. *)
Definition int_timestamp (d : datetime) : Z := (d ÷ 1000000)%Z.

End Py.

Notation "x <- m ;; k" := (Py.bind m (fun x => k))
  (at level 61, m at next level, right associativity).

(** ** The token functions of [main.py] *)

Import Py.

(** The field delimiter of a token. *)
Definition delim : ascii := "|"%char.

(** [make_token]: [user_id|expiry|signature], the expiry 24 hours after the
    clock reading [now], in whole seconds. *)
Definition make_token (SECRET : string) (now : datetime) (user_id : string)
  : string :=
  let expiry := int_timestamp (now + timedelta_hours 24)%Z in
  let payload := user_id ++ "|" ++ str expiry in
  let signature := sha256_hexdigest (payload ++ SECRET) in
  payload ++ "|" ++ signature.

(** The [return] statements of the [try] block of [parse_token], by line:
    [return None] after the signature comparison (line 58), [return None]
    after the expiry comparison (line 60), [return user_id] (line 61). *)
Inductive ret : Type :=
| Ret58
| Ret60
| Ret61 (user_id : string).

(** The Python value each of them returns. *)
Definition value_of (r : ret) : option string :=
  match r with
  | Ret61 user_id => Some user_id
  | Ret58 | Ret60 => None
  end.

(** The [try] block of [parse_token] (lines 55 to 61). *)
Definition parse_token_try (SECRET : string) (now : datetime) (token : string)
  : result ret :=
  fields <- unpack3 (split delim token) ;;
  let '(user_id, expiry, signature) := fields in
  let payload := user_id ++ "|" ++ expiry in
  if negb (sha256_hexdigest (payload ++ SECRET) =? signature) then Return Ret58
  else
    e <- int expiry ;;
    if (e <? int_timestamp now)%Z then Return Ret60
    else Return (Ret61 user_id).

(** [parse_token]: the [try] block under [except Exception: return None]. *)
Definition parse_token (SECRET : string) (now : datetime) (token : string)
  : result (option string) :=
  match parse_token_try SECRET now token with
  | Return r => Return (value_of r)
  | Raise _ => Return None
  end.

(** The error kinds of the specification, read off the way the [try] block
    is left: an exception is [Malformed], the return after the signature
    comparison is [Tampered], the return after the expiry comparison is
    [Expired]. *)
Inductive AuthError : Type := Malformed | Tampered | Expired.

Definition failed_check (x : result ret) : option AuthError :=
  match x with
  | Raise _ => Some Malformed
  | Return Ret58 => Some Tampered
  | Return Ret60 => Some Expired
  | Return (Ret61 _) => None
  end.

(** The check [parse_token] fails at, if any. *)
Definition verify_error (SECRET : string) (now : datetime) (token : string)
  : option AuthError :=
  failed_check (parse_token_try SECRET now token).

(** ** Vocabulary of the statements *)

(** [c in s] *)
Fixpoint contains (c : ascii) (s : string) : bool :=
  match s with
  | "" => false
  | String a r => Ascii.eqb a c || contains c r
  end.

(** [s.count(c)] *)
Fixpoint count (c : ascii) (s : string) : nat :=
  match s with
  | "" => O
  | String a r => if Ascii.eqb a c then S (count c r) else count c r
  end.

(** [all(p(c) for c in s)] *)
Fixpoint all_chars (p : ascii -> bool) (s : string) : bool :=
  match s with
  | "" => true
  | String a r => p a && all_chars p r
  end.

(** [sep.join(l)] *)
Fixpoint join (sep : ascii) (l : list string) : string :=
  match l with
  | [] => ""
  | a :: r =>
      match r with
      | [] => a
      | _ :: _ => a ++ String sep (join sep r)
      end
  end.

(** [s] with its character at index [i] replaced by [c]. *)
Fixpoint set_char (i : nat) (c : ascii) (s : string) : string :=
  match s with
  | "" => ""
  | String a r =>
      match i with
      | O => String c r
      | S k => String a (set_char k c r)
      end
  end.

(** A token put together from its three segments. *)
Definition token_of (user_id expiry signature : string) : string :=
  user_id ++ "|" ++ expiry ++ "|" ++ signature.

(** The signature [make_token] and [parse_token] compute for a payload. *)
Definition sign (SECRET user_id expiry : string) : string :=
  sha256_hexdigest ((user_id ++ "|" ++ expiry) ++ SECRET).

(** [c.isdigit()], on ASCII. *)
Definition isdigit (c : ascii) : bool :=
  match digit_val c with Some _ => true | None => false end.

(** The characters an [int] literal is made of. *)
Definition int_char (c : ascii) : bool :=
  isspace c || isdigit c
  || Ascii.eqb c "_" || Ascii.eqb c "+" || Ascii.eqb c "-".

(** The characters of a hexadecimal digest. *)
Definition hex_char (c : ascii) : bool := contains c "0123456789abcdef".

(** The characters of the decimal text of an [int]. *)
Definition dec_char (c : ascii) : bool := isdigit c || Ascii.eqb c "-".

(** The first statements of [get_current_user]: the HTTP boundary answers
    every failure of [parse_token], and an empty user id, with the same
    401 response. *)
Inductive http_response : Type :=
| HTTPException (status_code : Z) (detail : string).

Definition get_current_user_uid (SECRET : string) (now : datetime)
  (token : string) : http_response + string :=
  match parse_token SECRET now token with
  | Return (Some uid) =>
      if uid =? "" then inl (HTTPException 401 "Invalid or expired token")
      else inr uid
  | _ => inl (HTTPException 401 "Invalid or expired token")
  end.

(** ** Passwords ([main.py], lines 37 to 42) *)

(** [hash_password] *)
Definition hash_password (SECRET pw : string) : string :=
  sha256_hexdigest (pw ++ SECRET).

(** [verify_password] *)
Definition verify_password (SECRET pw hashed : string) : bool :=
  hash_password SECRET pw =? hashed.

(** ** Documents and models *)

(** An [ObjectId], by the text [str] gives for it. *)
Definition oid : Type := string.

(** The values found in documents, filters and responses. *)
#[warnings="-register-all"]
Inductive value : Type :=
| VNone
| VBool (b : bool)
| VInt (z : Z)
| VStr (s : string)
| VObjectId (o : oid)
| VDatetime (d : datetime)
| VList (l : list value)
| VDict (d : list (string * value)).

(** A Python [dict] with string keys, in insertion order. *)
Definition dict : Type := list (string * value).

(** [d.get(k)] *)
Fixpoint dict_get (k : string) (d : dict) : option value :=
  match d with
  | [] => None
  | (k', v) :: r => if k' =? k then Some v else dict_get k r
  end.

(** [d[k] = v]: an existing key keeps its place, a new one goes last. *)
Fixpoint dict_set (k : string) (v : value) (d : dict) : dict :=
  match d with
  | [] => [(k, v)]
  | (k', v') :: r =>
      if k' =? k then (k, v) :: r else (k', v') :: dict_set k v r
  end.

(** [d.pop(k, None)].  A [dict] holds a key once; on a list that repeats
    the key every entry goes. *)
Fixpoint dict_pop (k : string) (d : dict) : dict :=
  match d with
  | [] => []
  | (k', v) :: r => if k' =? k then dict_pop k r else (k', v) :: dict_pop k r
  end.

(** [list(d.keys())] *)
Definition dict_keys (d : dict) : list string := map fst d.

(** A document read from a collection: the [_id] the driver gave it, and
    its other fields. *)
Record document : Type := Document { _id : oid; fields : dict }.

(** The document as the [dict] the driver returns, [_id] first. *)
Definition as_dict (d : document) : dict :=
  ("_id", VObjectId (_id d)) :: fields d.

(** [b["_id"] = str(b["_id"])] *)
Definition stringify_id (d : document) : dict :=
  dict_set "_id" (VStr (_id d)) (as_dict d).

(** [v != s] for a value read with [get] and a [str]. *)
Definition ne_str (v : option value) (s : string) : bool :=
  match v with
  | Some (VStr r) => negb (r =? s)
  | _ => true
  end.

(** The models of [schemas.py]. *)

Module LibraryUser.
Record t : Type := mk {
  name : string;
  email : string;
  password_hash : string;
  role : string;
  avatar_url : option string;
  preferences : option dict;
  is_active : bool }.
End LibraryUser.

Module Book.
Record t : Type := mk {
  title : string;
  author : string;
  genre : string;
  year : Z;
  isbn : string;
  description : option string;
  cover_url : option string;
  file_url : option string;
  tags : list string;
  featured : bool }.
End Book.

Module Review.
Record t : Type := mk {
  book_id : string;
  user_id : string;
  rating : Z;
  comment : option string }.
End Review.

Module Borrow.
Record t : Type := mk {
  book_id : string;
  user_id : string;
  status : string;
  due_date : option string }.
End Borrow.

Module Activity.
Record t : Type := mk {
  user_id : option string;
  type : string;
  meta : dict }.
End Activity.

Inductive model : Type :=
| MLibraryUser (u : LibraryUser.t)
| MBook (b : Book.t)
| MReview (r : Review.t)
| MBorrow (b : Borrow.t)
| MActivity (a : Activity.t).

(** The request and response models of [main.py]. *)

Module Token.
Record t : Type := mk { access_token : string; token_type : string }.
End Token.

Module RegisterPayload.
Record t : Type := mk { name : string; email : string; password : string }.
End RegisterPayload.

Module BookQuery.
Record t : Type := mk {
  q : option string;
  genre : option string;
  author : option string;
  year : option Z;
  featured : option bool;
  limit : Z }.
End BookQuery.

Module UpdateBookPayload.
Record t : Type := mk {
  title : option string;
  author : option string;
  genre : option string;
  year : option Z;
  isbn : option string;
  description : option string;
  cover_url : option string;
  file_url : option string;
  tags : option (list string);
  featured : option bool }.
End UpdateBookPayload.

(** ** Handlers as programs over the database *)

(** What a handler raises: an [HTTPException], [bson.errors.InvalidId] out of
    [ObjectId(...)], or an exception of the built-ins. *)
Inductive exception : Type :=
| Http (r : http_response)
| InvalidId
| PyException (e : exn).

(** The calls a handler makes to [bson], to the database [db] and to
    [create_document], each with the type of its answer. [ObjectId] answers
    [None] when it raises [InvalidId]; [update_one] and [delete_one] answer
    the matched and the deleted count. *)
Inductive call : Type -> Type :=
| ObjectId (s : string) : call (option oid)
| find_one (collection : string) (filter : dict) : call (option document)
| find (collection : string) (filter : dict) (sort : option (string * Z))
       (limit : Z) : call (list document)
| count_documents (collection : string) (filter : dict) : call Z
| update_one (collection : string) (filter update : dict) : call Z
| delete_one (collection : string) (filter : dict) : call Z
| create_document (collection : string) (data : model) : call string.

Inductive prog (A : Type) : Type :=
| Done (a : A)
| Throw (e : exception)
| Call {X : Type} (c : call X) (k : X -> prog A).

Arguments Done {A} a.
Arguments Throw {A} e.
Arguments Call {A X} c k.

Fixpoint pbind {A B : Type} (p : prog A) (f : A -> prog B) : prog B :=
  match p with
  | Done a => f a
  | Throw e => Throw e
  | Call c k => Call c (fun x => pbind (k x) f)
  end.

(** [try: p except Exception: h] *)
Fixpoint catch {A : Type} (p : prog A) (h : exception -> prog A) : prog A :=
  match p with
  | Done a => Done a
  | Throw e => h e
  | Call c k => Call c (fun x => catch (k x) h)
  end.

Definition perform {X : Type} (c : call X) : prog X := Call c Done.

Notation "x <~ p ;; k" := (pbind p (fun x => k))
  (at level 61, p at next level, right associativity).

Definition HTTP {A : Type} (status_code : Z) (detail : string) : prog A :=
  Throw (Http (HTTPException status_code detail)).

(** [ObjectId(s)], raising [InvalidId]. *)
Definition new_ObjectId (s : string) : prog oid :=
  r <~ perform (ObjectId s) ;;
  match r with
  | Some o => Done o
  | None => Throw InvalidId
  end.

(** A call with its answer. *)
Inductive event : Type :=
| Event {X : Type} (c : call X) (x : X).

(** The runs of a program: the calls made, with the answers received, and
    the outcome.  Every call returns in a run; [executes] below also has
    the executions in which a call raises. *)
Fixpoint runs {A : Type} (p : prog A) (tr : list event) (o : exception + A)
  : Prop :=
  match p with
  | Done a => tr = [] /\ o = inr a
  | Throw e => tr = [] /\ o = inl e
  | Call c k => exists x tr', tr = Event c x :: tr' /\ runs (k x) tr' o
  end.

(** Running a program against fixed answers. *)
Definition answers : Type := forall X : Type, call X -> X.

Fixpoint exec {A : Type} (env : answers) (p : prog A)
  : list event * (exception + A) :=
  match p with
  | Done a => ([], inr a)
  | Throw e => ([], inl e)
  | Call c k =>
      let x := env _ c in
      let '(tr, o) := exec env (k x) in
      (Event c x :: tr, o)
  end.

(** The [find_one] calls with their answers. *)
Definition found_of (e : event) : list (string * dict * option document) :=
  match e with
  | Event c x =>
      match c in call X return X -> _ with
      | find_one collection filter => fun d => [(collection, filter, d)]
      | _ => fun _ => []
      end x
  end.

Definition found (tr : list event) : list (string * dict * option document) :=
  flat_map found_of tr.

(** ** The handlers of [main.py] *)

(** [d.get(k)] on a document. *)
Definition doc_get (k : string) (d : document) : option value :=
  dict_get k (as_dict d).

(** [Activity(type=..., user_id=..., meta=...)], logged by most handlers. *)
Definition log_activity (type : string) (user_id : string) (meta : dict)
  : prog string :=
  perform (create_document "activity"
             (MActivity (Activity.mk (Some user_id) type meta))).

(** [get_current_user] (lines 66 to 73); [token] is what the bearer scheme
    read from the request, [now] the clock reading [parse_token] takes. *)
Definition get_current_user (SECRET : string) (now : datetime)
  (token : string) : prog document :=
  match parse_token SECRET now token with
  | Raise e => Throw (PyException e)
  | Return None => HTTP 401 "Invalid or expired token"
  | Return (Some uid) =>
      if uid =? "" then HTTP 401 "Invalid or expired token"
      else
        o <~ new_ObjectId uid ;;
        user <~ perform (find_one "libraryuser" [("_id", VObjectId o)]) ;;
        match user with
        | None => HTTP 401 "User not found"
        | Some u => Done u
        end
  end.


(** [register] (lines 101 to 115); [now] is the clock reading of
    [make_token]. *)
Definition register (SECRET : string) (now : datetime)
  (payload : RegisterPayload.t) : prog Token.t :=
  existing <~ perform (find_one "libraryuser"
                         [("email", VStr (RegisterPayload.email payload))]) ;;
  match existing with
  | Some _ => HTTP 400 "Email already registered"
  | None =>
      let user :=
        LibraryUser.mk
          (RegisterPayload.name payload)
          (RegisterPayload.email payload)
          (hash_password SECRET (RegisterPayload.password payload))
          "user"
          None
          (Some [("theme", VStr "light"); ("fontSize", VInt 16);
                 ("highContrast", VBool false)])
          true in
      uid <~ perform (create_document "libraryuser" (MLibraryUser user)) ;;
      let token := make_token SECRET now uid in
      _ <~ perform (create_document "activity"
                      (MActivity
                         (Activity.mk (Some uid) "register"
                            [("email", VStr (RegisterPayload.email payload))]))) ;;
      Done (Token.mk token "bearer")
  end.

(** [hash_password(pw) == hashed] for a value read from a document. *)
Definition verify_password_value (SECRET pw : string) (hashed : value) : bool :=
  match hashed with
  | VStr h => verify_password SECRET pw h
  | _ => false
  end.

(** [login] (lines 118 to 125), on the form's [username] and [password]. *)
Definition login (SECRET : string) (now : datetime)
  (username password : string) : prog Token.t :=
  user <~ perform (find_one "libraryuser" [("email", VStr username)]) ;;
  match user with
  | None => HTTP 401 "Invalid credentials"
  | Some u =>
      let hashed := match doc_get "password_hash" u with
                    | Some v => v
                    | None => VStr ""
                    end in
      if negb (verify_password_value SECRET password hashed)
      then HTTP 401 "Invalid credentials"
      else
        let token := make_token SECRET now (_id u) in
        _ <~ log_activity "login" (_id u) [] ;;
        Done (Token.mk token "bearer")
  end.

(** [me] (lines 128 to 132) *)
Definition me (current : document) : dict :=
  dict_pop "password_hash" (stringify_id current).

(** [current.get("role") != "admin"] *)
Definition not_admin (current : document) : bool :=
  ne_str (doc_get "role" current) "admin".


(** The filter of [search_books] (lines 156 to 175).  [if query.genre:]
    skips [None] and the empty string, [if query.year:] skips [None] and 0,
    [featured] is kept unless it is [None]. *)
Definition search_filter (query : BookQuery.t) : dict :=
  let filt := [] in
  let filt := match BookQuery.genre query with
              | Some g => if g =? "" then filt
                          else dict_set "genre" (VStr g) filt
              | None => filt
              end in
  let filt := match BookQuery.author query with
              | Some a => if a =? "" then filt
                          else dict_set "author" (VStr a) filt
              | None => filt
              end in
  let filt := match BookQuery.year query with
              | Some y => if (y =? 0)%Z then filt
                          else dict_set "year" (VInt y) filt
              | None => filt
              end in
  let filt := match BookQuery.featured query with
              | Some f => dict_set "featured" (VBool f) filt
              | None => filt
              end in
  match BookQuery.q query with
  | Some q =>
      if q =? "" then filt
      else
        let regex := VDict [("$regex", VStr q); ("$options", VStr "i")] in
        dict_set "$or"
          (VList [VDict [("title", regex)]; VDict [("author", regex)];
                  VDict [("tags", regex)]; VDict [("description", regex)];
                  VDict [("isbn", regex)]])
          filt
  | None => filt
  end.

(** The items of a response: each document with its [_id] as text. *)
Definition items (docs : list document) : dict :=
  [("items", VList (map (fun b => VDict (stringify_id b)) docs))].

(** [search_books] (lines 154 to 182) *)
Definition search_books (query : BookQuery.t) : prog dict :=
  books <~ perform (find "book" (search_filter query) None
                      (BookQuery.limit query)) ;;
  Done (items books).

(** [get_book] (lines 185 to 194) *)
Definition get_book (book_id : string) : prog dict :=
  catch
    (o <~ new_ObjectId book_id ;;
     b <~ perform (find_one "book" [("_id", VObjectId o)]) ;;
     match b with
     | None => HTTP 404 "Not found"
     | Some b => Done (stringify_id b)
     end)
    (fun _ => HTTP 404 "Not found").

Definition opt_value {A : Type} (f : A -> value) (o : option A) : value :=
  match o with
  | Some a => f a
  | None => VNone
  end.

(** [payload.dict()] *)
Definition UpdateBookPayload_dict (payload : UpdateBookPayload.t) : dict :=
  [("title", opt_value VStr (UpdateBookPayload.title payload));
   ("author", opt_value VStr (UpdateBookPayload.author payload));
   ("genre", opt_value VStr (UpdateBookPayload.genre payload));
   ("year", opt_value VInt (UpdateBookPayload.year payload));
   ("isbn", opt_value VStr (UpdateBookPayload.isbn payload));
   ("description", opt_value VStr (UpdateBookPayload.description payload));
   ("cover_url", opt_value VStr (UpdateBookPayload.cover_url payload));
   ("file_url", opt_value VStr (UpdateBookPayload.file_url payload));
   ("tags", opt_value (fun l => VList (map VStr l))
              (UpdateBookPayload.tags payload));
   ("featured", opt_value VBool (UpdateBookPayload.featured payload))].

Definition is_None (v : value) : bool :=
  match v with
  | VNone => true
  | _ => false
  end.

(** [{k: v for k, v in d.items() if v is not None}] *)
Definition without_None (d : dict) : dict :=
  filter (fun kv => negb (is_None (snd kv))) d.

(** [update_book] (lines 210 to 219) *)
Definition update_book (book_id : string) (payload : UpdateBookPayload.t)
  (current : document) : prog dict :=
  if not_admin current then HTTP 403 "Admins only"
  else
    let update := without_None (UpdateBookPayload_dict payload) in
    o <~ new_ObjectId book_id ;;
    matched_count <~ perform (update_one "book" [("_id", VObjectId o)]
                                [("$set", VDict update)]) ;;
    if (matched_count =? 0)%Z then HTTP 404 "Not found"
    else
      _ <~ log_activity "update_book" (_id current)
             [("book_id", VStr book_id)] ;;
      Done [("updated", VBool true)].

(** [delete_book] (lines 222 to 230) *)
Definition delete_book (book_id : string) (current : document) : prog dict :=
  if not_admin current then HTTP 403 "Admins only"
  else
    o <~ new_ObjectId book_id ;;
    deleted_count <~ perform (delete_one "book" [("_id", VObjectId o)]) ;;
    if (deleted_count =? 0)%Z then HTTP 404 "Not found"
    else
      _ <~ log_activity "delete_book" (_id current)
             [("book_id", VStr book_id)] ;;
      Done [("deleted", VBool true)].

(** [add_review] (lines 234 to 243) *)
Definition add_review (book_id : string) (review : Review.t)
  (current : document) : prog dict :=
  if negb (Review.user_id review =? _id current)
  then HTTP 403 "User mismatch"
  else
    o <~ new_ObjectId book_id ;;
    book <~ perform (find_one "book" [("_id", VObjectId o)]) ;;
    match book with
    | None => HTTP 404 "Book not found"
    | Some _ =>
        rid <~ perform (create_document "review" (MReview review)) ;;
        _ <~ log_activity "review" (_id current)
               [("book_id", VStr book_id); ("review_id", VStr rid)] ;;
        Done [("id", VStr rid)]
    end.

(** [list_reviews] (lines 246 to 251) *)
Definition list_reviews (book_id : string) (limit : Z) : prog dict :=
  rs <~ perform (find "review" [("book_id", VStr book_id)] None limit) ;;
  Done (items rs).

(** [borrow_book] (lines 255 to 265) *)
Definition borrow_book (borrow : Borrow.t) (current : document) : prog dict :=
  if negb (Borrow.user_id borrow =? _id current)
  then HTTP 403 "User mismatch"
  else
    active <~ perform (count_documents "borrow"
                         [("user_id", VStr (Borrow.user_id borrow));
                          ("status", VStr "borrowed")]) ;;
    if (3 <=? active)%Z then HTTP 400 "Borrow limit reached"
    else
      borrow_id <~ perform (create_document "borrow" (MBorrow borrow)) ;;
      _ <~ log_activity "borrow" (_id current)
             [("book_id", VStr (Borrow.book_id borrow))] ;;
      Done [("id", VStr borrow_id)].

(** [return_book] (lines 268 to 277); [now] is the clock reading written to
    [updated_at]. *)
Definition return_book (now : datetime) (borrow_id : string)
  (current : document) : prog dict :=
  o <~ new_ObjectId borrow_id ;;
  b <~ perform (find_one "borrow" [("_id", VObjectId o)]) ;;
  match b with
  | None => HTTP 404 "Not found"
  | Some b =>
      if ne_str (doc_get "user_id" b) (_id current) then HTTP 403 "Forbidden"
      else
        o' <~ new_ObjectId borrow_id ;;
        _ <~ perform (update_one "borrow" [("_id", VObjectId o')]
                        [("$set", VDict [("status", VStr "returned");
                                         ("updated_at", VDatetime now)])]) ;;
        _ <~ log_activity "return" (_id current)
               [("borrow_id", VStr borrow_id)] ;;
        Done [("returned", VBool true)]
  end.


(** The collections a run wrote to, one entry per write. *)
Definition written_of (e : event) : list string :=
  match e with
  | Event c _ =>
      match c with
      | create_document collection _ => [collection]
      | update_one collection _ _ => [collection]
      | delete_one collection _ => [collection]
      | _ => []
      end
  end.

Definition written (tr : list event) : list string := flat_map written_of tr.

(** How an execution ends: as a run does, or with the exception that a call
    to the database raised. *)
Inductive ending (A : Type) : Type :=
| Ended (o : exception + A)
| CallRaised.

Arguments Ended {A} o.
Arguments CallRaised {A}.

(** The executions of a program that has no [try] around its calls: the
    calls that returned, with their answers, and the ending.  Each call
    either returns, or raises and ends the execution. *)
Fixpoint executes {A : Type} (p : prog A) (tr : list event) (o : ending A)
  : Prop :=
  match p with
  | Done a => tr = [] /\ o = Ended (inr a)
  | Throw e => tr = [] /\ o = Ended (inl e)
  | Call c k =>
      (tr = [] /\ o = CallRaised) \/
      exists x tr', tr = Event c x :: tr' /\ executes (k x) tr' o
  end.

(** Where [Py.int] is exact.  [sys.get_int_max_str_digits()] is 4300 unless
    the interpreter is told otherwise; CPython counts the digits of the
    literal, leading zeros included, and neither sign, blanks nor
    underscores. *)
Definition int_max_str_digits : nat := 4300.

Fixpoint digit_count (s : string) : nat :=
  match s with
  | "" => O
  | String c r => if isdigit c then S (digit_count r) else digit_count r
  end.

(** A byte of ASCII text. *)
Definition is_ascii (c : ascii) : bool := (N_of_ascii c <? 128)%N.





(** ** Strings *)

Section StringFacts.

Variable sep : ascii.

Lemma append_assoc_str (a b c : string) : (a ++ b) ++ c = a ++ (b ++ c).
Proof. induction a as [|x a IH]; simpl; [reflexivity | now rewrite IH]. Qed.

Lemma append_inv_head (a b c : string) : a ++ b = a ++ c -> b = c.
Proof.
  induction a as [|x a IH]; simpl; intros H; [assumption|].
  injection H as H. auto.
Qed.

Lemma contains_app (a b : string) :
  contains sep (a ++ b) = contains sep a || contains sep b.
Proof.
  induction a as [|x a IH]; simpl; [reflexivity|].
  now rewrite IH, orb_assoc.
Qed.

Lemma count_app (a b : string) :
  count sep (a ++ b) = (count sep a + count sep b)%nat.
Proof.
  induction a as [|x a IH]; simpl; [reflexivity|].
  rewrite IH. now destruct (Ascii.eqb x sep).
Qed.

Lemma count_contains (s : string) :
  contains sep s = true -> (1 <= count sep s)%nat.
Proof.
  induction s as [|x s IH]; simpl; [discriminate|].
  destruct (Ascii.eqb x sep); simpl; [lia | exact IH].
Qed.

Lemma all_chars_app (p : ascii -> bool) (a b : string) :
  all_chars p (a ++ b) = all_chars p a && all_chars p b.
Proof.
  induction a as [|x a IH]; simpl; [reflexivity|].
  now rewrite IH, andb_assoc.
Qed.

Lemma all_chars_contains (p : ascii -> bool) (s : string) :
  p sep = false -> all_chars p s = true -> contains sep s = false.
Proof.
  intros Hp. induction s as [|x s IH]; simpl; [reflexivity|].
  intros H. apply andb_prop in H as [Hx Hs].
  rewrite (IH Hs), orb_false_r.
  destruct (Ascii.eqb_spec x sep) as [->|]; [congruence | reflexivity].
Qed.

Lemma all_chars_impl (p q : ascii -> bool) (s : string) :
  (forall c, p c = true -> q c = true) ->
  all_chars p s = true -> all_chars q s = true.
Proof.
  intros Hpq. induction s as [|x s IH]; simpl; [reflexivity|].
  intros H. apply andb_prop in H as [Hx Hs].
  now rewrite (Hpq _ Hx), (IH Hs).
Qed.

Lemma split_not_nil (s : string) : split sep s <> [].
Proof.
  destruct s as [|x s]; simpl; [discriminate|].
  destruct (Ascii.eqb x sep); [discriminate|].
  destruct (split sep s); discriminate.
Qed.

Lemma split_app_sep (a r : string) :
  contains sep a = false -> split sep (a ++ String sep r) = a :: split sep r.
Proof.
  induction a as [|x a IH]; simpl; intros H.
  - now rewrite Ascii.eqb_refl.
  - apply orb_false_elim in H as [Hx Ha].
    now rewrite Hx, (IH Ha).
Qed.

Lemma split_no_sep (s : string) :
  contains sep s = false -> split sep s = [s].
Proof.
  induction s as [|x s IH]; simpl; intros H; [reflexivity|].
  apply orb_false_elim in H as [Hx Hs].
  now rewrite Hx, (IH Hs).
Qed.

Lemma length_split (s : string) :
  List.length (split sep s) = S (count sep s).
Proof.
  induction s as [|x s IH]; simpl; [reflexivity|].
  destruct (Ascii.eqb x sep); simpl; [now rewrite IH|].
  destruct (split sep s); simpl in *; [discriminate | exact IH].
Qed.

Lemma split_fields (s : string) :
  Forall (fun f => contains sep f = false) (split sep s).
Proof.
  induction s as [|x s IH]; simpl.
  - now constructor.
  - destruct (Ascii.eqb x sep) eqn:Hx.
    + now constructor.
    + destruct (split sep s) as [|h t].
      * constructor; [|constructor]. simpl. now rewrite Hx.
      * inversion IH; subst.
        constructor; [|assumption]. simpl. now rewrite Hx.
Qed.

Lemma join_split (s : string) : join sep (split sep s) = s.
Proof.
  induction s as [|x s IH]; simpl; [reflexivity|].
  destruct (Ascii.eqb_spec x sep) as [->|Hx].
  - pose proof (split_not_nil s) as Hn.
    destruct (split sep s) as [|h t]; [contradiction|].
    simpl in *. now rewrite IH.
  - destruct (split sep s) as [|h t] eqn:E; [now destruct (split_not_nil s)|].
    simpl in *. destruct t; simpl; now rewrite <- IH.
Qed.

Lemma set_char_same_length (i : nat) (c : ascii) (s : string) :
  String.length (set_char i c s) = String.length s.
Proof.
  revert i; induction s as [|x s IH]; intros [|i]; simpl; auto.
Qed.

Lemma set_char_neq (i : nat) (c c0 : ascii) (s : string) :
  String.get i s = Some c0 -> c <> c0 -> set_char i c s <> s.
Proof.
  revert i; induction s as [|x s IH]; intros [|i]; simpl; try discriminate.
  - intros [= ->] Hc [= E]. contradiction.
  - intros Hg Hc [= E]. exact (IH _ Hg Hc E).
Qed.

Lemma set_char_contains (i : nat) (c c0 : ascii) (s : string) :
  String.get i s = Some c0 -> contains sep s = false ->
  contains sep (set_char i c s) = Ascii.eqb c sep.
Proof.
  revert i; induction s as [|x s IH]; intros [|i]; simpl; try discriminate.
  - intros _ H. apply orb_false_elim in H as [_ Hs].
    now rewrite Hs, orb_false_r.
  - intros Hg H. apply orb_false_elim in H as [Hx Hs].
    now rewrite Hx, (IH _ Hg Hs).
Qed.

End StringFacts.

(** ** The built-ins *)

(** Test vectors of FIPS 180-4, and the built-ins on a few inputs. *)

Example sha256_empty :
  sha256_hexdigest ""
  = "e3b0c44298fc1c149afbf4c8996fb92427ae41e4649b934ca495991b7852b855".
Proof. vm_compute. reflexivity. Qed.

Example sha256_abc :
  sha256_hexdigest "abc"
  = "ba7816bf8f01cfea414140de5dae2223b00361a396177a9cb410ff61f20015ad".
Proof. vm_compute. reflexivity. Qed.

Example sha256_two_blocks :
  sha256_hexdigest "abcdbcdecdefdefgefghfghighijhijkijkljklmklmnlmnomnopnopq"
  = "248d6a61d20638b8e5c026930c3e6039a33ce45964ff2167f6ecedd419db06c1".
Proof. vm_compute. reflexivity. Qed.

Example split_examples :
  split "|" "a|b||" = ["a"; "b"; ""; ""] /\
  split "|" "" = [""] /\ split "|" "|" = [""; ""].
Proof. repeat split. Qed.

Example int_examples :
  int " 1_0 " = Return 10%Z /\ int "+5" = Return 5%Z /\
  int "-0012" = Return (-12)%Z /\ int "1__0" = Raise ValueError_int /\
  int "_1" = Raise ValueError_int /\ int "" = Raise ValueError_int /\
  int "- 1" = Raise ValueError_int /\ int "1 2" = Raise ValueError_int.
Proof. repeat split. Qed.

Example str_examples :
  str 0 = "0" /\ str (-5) = "-5" /\ str 1700086400 = "1700086400".
Proof. repeat split. Qed.

Example make_token_example :
  make_token "dev-secret" 1700000000123456%Z "u123"
  = "u123|1700086400|2cd6b8ff3d6fc1fb206854d7fa8f2b28dc1d912c991d631ee9f8965ef4b969df".
Proof. vm_compute. reflexivity. Qed.

Ltac each_ascii c :=
  destruct c as [[] [] [] [] [] [] [] []].

Lemma hex_digit_hex (n : Z) : hex_char (hex_digit n) = true.
Proof.
  unfold hex_digit.
  destruct (n mod 16)%Z as [|p|p]; try reflexivity;
    do 4 (try destruct p as [p|p|]); reflexivity.
Qed.

Lemma hex_word_hex (k : nat) (x : Z) : all_chars hex_char (hex_word k x) = true.
Proof.
  induction k as [|k IH]; simpl; [reflexivity|].
  now rewrite hex_digit_hex, IH.
Qed.

Lemma sha256_hexdigest_hex (m : string) :
  all_chars hex_char (sha256_hexdigest m) = true.
Proof.
  unfold sha256_hexdigest.
  induction (SHA256.digest (encode m)) as [|w ws IH]; [reflexivity|].
  cbn [hex_words]. now rewrite all_chars_app, hex_word_hex, IH.
Qed.

Lemma sha256_hexdigest_no_delim (m : string) :
  contains delim (sha256_hexdigest m) = false.
Proof.
  apply all_chars_contains with (p := hex_char);
    [reflexivity | apply sha256_hexdigest_hex].
Qed.

Lemma digit_char_isdigit (d : Z) : isdigit (digit_char d) = true.
Proof.
  destruct d as [|p|p]; try reflexivity;
    do 4 (try destruct p as [p|p|]); reflexivity.
Qed.

Lemma digit_val_digit_char (d : Z) :
  (0 <= d < 10)%Z -> digit_val (digit_char d) = Some d.
Proof.
  intros H.
  assert (d = 0 \/ d = 1 \/ d = 2 \/ d = 3 \/ d = 4 \/
          d = 5 \/ d = 6 \/ d = 7 \/ d = 8 \/ d = 9)%Z as E by lia.
  repeat (destruct E as [-> | E]; [reflexivity|]). now subst.
Qed.

Lemma str_digits_isdigit (f : nat) (n : Z) (acc : string) :
  all_chars isdigit acc = true -> all_chars isdigit (str_digits f n acc) = true.
Proof.
  revert n acc; induction f as [|f IH]; intros n acc H; simpl; [exact H|].
  assert (all_chars isdigit (String (digit_char (n mod 10)) acc) = true) as H'
    by (simpl; now rewrite digit_char_isdigit).
  destruct (n <? 10)%Z; [exact H' | now apply IH].
Qed.

Lemma str_digits_S (f : nat) (n : Z) (acc : string) :
  str_digits (S f) n acc =
  if (n <? 10)%Z then String (digit_char (n mod 10)) acc
  else str_digits f (n / 10) (String (digit_char (n mod 10)) acc).
Proof. reflexivity. Qed.

Lemma digits_str_digits (f : nat) (n : Z) (acc : string) :
  (0 <= n < 10 ^ Z.of_nat (S f))%Z ->
  digits (str_digits (S f) n acc) = digits_tail acc n.
Proof.
  revert n acc; induction f as [|f IH]; intros n acc H;
    rewrite str_digits_S; destruct (Z.ltb_spec n 10) as [Hlt|Hge].
  - simpl. rewrite Z.mod_small by lia.
    now rewrite digit_val_digit_char by lia.
  - change (10 ^ Z.of_nat 1)%Z with 10%Z in H. lia.
  - simpl. rewrite Z.mod_small by lia.
    now rewrite digit_val_digit_char by lia.
  - rewrite IH.
    + cbn [digits_tail].
      rewrite digit_val_digit_char by (apply Z.mod_pos_bound; lia).
      f_equal. symmetry. apply Z.div_mod. lia.
    + split; [apply Z.div_pos; lia|].
      apply Z.div_lt_upper_bound; [lia|].
      rewrite Nat2Z.inj_succ, Z.pow_succ_r in H by lia. lia.
Qed.

Lemma fuel_enough (n : Z) :
  (0 <= n)%Z -> (n < 10 ^ Z.of_nat (S (Z.to_nat (Z.log2 n))))%Z.
Proof.
  intros H.
  rewrite Nat2Z.inj_succ, Z2Nat.id by apply Z.log2_nonneg.
  destruct (Z.eq_dec n 0) as [->|Hn]; [reflexivity|].
  pose proof (Z.log2_spec n ltac:(lia)) as [_ Hlt].
  apply Z.lt_le_trans with (1 := Hlt).
  apply Z.pow_le_mono_l. pose proof (Z.log2_nonneg n). lia.
Qed.

Lemma isdigit_not_space (c : ascii) : isdigit c = true -> isspace c = false.
Proof. each_ascii c; intros H; try reflexivity; discriminate H. Qed.

Lemma isdigit_dec_char (c : ascii) : isdigit c = true -> dec_char c = true.
Proof. unfold dec_char. now intros ->. Qed.

Lemma dec_char_not_space (c : ascii) : dec_char c = true -> isspace c = false.
Proof. each_ascii c; intros H; try reflexivity; discriminate H. Qed.

Lemma lstrip_id (c : ascii) (r : string) :
  isspace c = false -> lstrip (String c r) = String c r.
Proof. simpl. now intros ->. Qed.

Lemma rstrip_id (s : string) :
  all_chars (fun c => negb (isspace c)) s = true -> rstrip s = s.
Proof.
  induction s as [|c r IH]; simpl; [reflexivity|].
  intros H. apply andb_prop in H as [Hc Hr].
  rewrite (IH Hr). apply negb_true_iff in Hc. rewrite Hc.
  now destruct r.
Qed.

Lemma signed_digit (c : ascii) (r : string) :
  isdigit c = true -> signed (String c r) = digits (String c r).
Proof. each_ascii c; intros H; try reflexivity; discriminate H. Qed.

(** The decimal text of an [int] is made of digits and a sign. *)
Lemma str_dec_chars (z : Z) : all_chars dec_char (str z) = true.
Proof.
  unfold str. destruct (z <? 0)%Z.
  - cbn [all_chars]. apply andb_true_intro; split; [reflexivity|].
    apply all_chars_impl with (1 := isdigit_dec_char).
    now apply str_digits_isdigit.
  - apply all_chars_impl with (1 := isdigit_dec_char).
    now apply str_digits_isdigit.
Qed.

Lemma str_no_delim (z : Z) : contains delim (str z) = false.
Proof.
  apply all_chars_contains with (p := dec_char);
    [reflexivity | apply str_dec_chars].
Qed.

Lemma str_no_space (z : Z) :
  all_chars (fun c => negb (isspace c)) (str z) = true.
Proof.
  apply all_chars_impl with (p := dec_char); [|apply str_dec_chars].
  intros c H. now rewrite (dec_char_not_space c H).
Qed.

(** Reading back the digits of a natural number. *)
Lemma digits_of_nonneg (n : Z) :
  (0 <= n)%Z ->
  let s := str_digits (S (Z.to_nat (Z.log2 n))) n "" in
  digits s = Some n /\ signed s = Some n /\ lstrip s = s.
Proof.
  intros Hn s.
  assert (digits s = Some n) as Hd.
  { unfold s. rewrite digits_str_digits; [reflexivity|].
    split; [assumption | now apply fuel_enough]. }
  assert (all_chars isdigit s = true) as Ha
    by (now apply str_digits_isdigit).
  destruct s as [|c r]; [discriminate Hd|].
  simpl in Ha. apply andb_prop in Ha as [Hc _].
  split; [assumption|]. split.
  - now rewrite signed_digit.
  - apply lstrip_id. now apply isdigit_not_space.
Qed.

Lemma str_nonneg (z : Z) :
  (0 <= z)%Z -> str z = str_digits (S (Z.to_nat (Z.log2 z))) z "".
Proof.
  intros H. unfold str. destruct (Z.ltb_spec z 0); [lia|].
  now rewrite Z.abs_eq.
Qed.

Lemma str_neg (z : Z) :
  (z < 0)%Z ->
  str z = String "-" (str_digits (S (Z.to_nat (Z.log2 (- z)))) (- z) "").
Proof.
  intros H. unfold str. destruct (Z.ltb_spec z 0); [|lia].
  now rewrite Z.abs_neq by lia.
Qed.

(** [int(str(z)) == z] *)
Lemma int_str (z : Z) : int (str z) = Return z.
Proof.
  unfold int. pose proof (str_no_space z) as Hs.
  destruct (Z.lt_ge_cases z 0) as [Hz|Hz].
  - rewrite str_neg in * by assumption.
    rewrite lstrip_id by reflexivity. rewrite rstrip_id by assumption.
    destruct (digits_of_nonneg (- z) ltac:(lia)) as (Hd & _ & _).
    cbn [signed]. cbv zeta in Hd. rewrite Hd. simpl. f_equal. lia.
  - rewrite str_nonneg in * by assumption.
    destruct (digits_of_nonneg z Hz) as (_ & Hd & Hl).
    cbv zeta in Hd, Hl. rewrite Hl, rstrip_id by assumption.
    now rewrite Hd.
Qed.

Lemma str_inj (a b : Z) : str a = str b -> a = b.
Proof.
  intros H. pose proof (int_str a) as Ha. rewrite H, int_str in Ha.
  now injection Ha.
Qed.

(** *** What [int] accepts is made of blanks, digits, underscores and signs *)

Lemma isdigit_int_char (c : ascii) : isdigit c = true -> int_char c = true.
Proof. unfold int_char. intros ->. now rewrite orb_true_r. Qed.

Lemma all_chars_cons (p : ascii -> bool) (c : ascii) (r : string) :
  all_chars p (String c r) = p c && all_chars p r.
Proof. reflexivity. Qed.

Lemma digits_tail_chars (r : string) :
  (forall acc v, digits_tail r acc = Some v -> all_chars int_char r = true) /\
  (forall c acc v, digits_tail (String c r) acc = Some v ->
                   all_chars int_char (String c r) = true).
Proof.
  induction r as [|c' r' [IH1 IH2]].
  - split; [reflexivity|]. intros c acc v. simpl.
    destruct (digit_val c) as [d|] eqn:Hd.
    + intros _. unfold int_char, isdigit. rewrite Hd.
      now rewrite orb_true_r.
    + destruct (Ascii.eqb c "_"); discriminate.
  - split; [exact (IH2 c')|].
    intros c acc v. cbn [digits_tail].
    destruct (digit_val c) as [d|] eqn:Hd.
    + intros H. rewrite all_chars_cons, (IH2 _ _ _ H), andb_true_r.
      apply isdigit_int_char. unfold isdigit. now rewrite Hd.
    + destruct (Ascii.eqb_spec c "_") as [->|]; [|discriminate].
      destruct (digit_val c') as [d'|] eqn:Hd'; [|discriminate].
      intros H. rewrite !all_chars_cons, (IH1 _ _ H), andb_true_r.
      rewrite (isdigit_int_char c') by (unfold isdigit; now rewrite Hd').
      reflexivity.
Qed.

Lemma digits_chars (s : string) (v : Z) :
  digits s = Some v -> all_chars int_char s = true.
Proof.
  destruct s as [|c r]; [discriminate|]. simpl.
  destruct (digit_val c) as [d|] eqn:Hd; [|discriminate].
  intros H. destruct (digits_tail_chars r) as [Hr _].
  rewrite (Hr _ _ H), andb_true_r.
  apply isdigit_int_char. unfold isdigit. now rewrite Hd.
Qed.

Lemma signed_chars (s : string) (v : Z) :
  signed s = Some v -> all_chars int_char s = true.
Proof.
  destruct s as [|c r]; [discriminate|].
  destruct (isdigit c) eqn:Hc.
  - rewrite signed_digit by assumption. apply digits_chars.
  - assert (c = "-"%char \/ c = "+"%char \/
            signed (String c r) = digits (String c r)) as [-> | [-> | ->]].
    { each_ascii c; auto. }
    + cbn [signed]. destruct (digits r) as [d|] eqn:Hd; [|discriminate].
      intros _. cbn [all_chars]. now rewrite (digits_chars _ _ Hd).
    + cbn [signed]. intros Hd. cbn [all_chars].
      now rewrite (digits_chars _ _ Hd).
    + apply digits_chars.
Qed.

Lemma lstrip_chars (p : ascii -> bool) (s : string) :
  (forall c, isspace c = true -> p c = true) ->
  all_chars p (lstrip s) = true -> all_chars p s = true.
Proof.
  intros Hp. induction s as [|c r IH]; simpl; [reflexivity|].
  destruct (isspace c) eqn:Hc; [|exact (fun H => H)].
  intros H. now rewrite (Hp _ Hc), (IH H).
Qed.

Lemma rstrip_chars (p : ascii -> bool) (s : string) :
  (forall c, isspace c = true -> p c = true) ->
  all_chars p (rstrip s) = true -> all_chars p s = true.
Proof.
  intros Hp. induction s as [|c r IH]; simpl; [reflexivity|].
  destruct (rstrip r) as [|c' r'] eqn:E.
  - destruct (isspace c) eqn:Hc.
    + intros _. now rewrite (Hp _ Hc), IH.
    + simpl. rewrite andb_true_r. intros ->. now rewrite IH.
  - cbn [all_chars]. intros H. apply andb_prop in H as [-> H].
    now rewrite IH.
Qed.

Lemma int_chars (s : string) (v : Z) :
  int s = Return v -> all_chars int_char s = true.
Proof.
  unfold int. destruct (signed _) as [z|] eqn:E; [|discriminate].
  intros _.
  assert (forall c, isspace c = true -> int_char c = true) as Hsp
    by (intros c Hc; unfold int_char; now rewrite Hc).
  apply lstrip_chars, rstrip_chars; try assumption.
  exact (signed_chars _ _ E).
Qed.

Lemma int_no_delim (s : string) (v : Z) :
  int s = Return v -> contains delim s = false.
Proof.
  intros H. apply all_chars_contains with (p := int_char);
    [reflexivity | exact (int_chars _ _ H)].
Qed.

(** ** The token functions *)

Lemma make_token_fields (SECRET : string) (now : datetime) (user_id : string) :
  let expiry := str (int_timestamp (now + timedelta_hours 24)%Z) in
  make_token SECRET now user_id
  = token_of user_id expiry (sign SECRET user_id expiry).
Proof.
  unfold make_token, token_of, sign. cbv zeta.
  now rewrite !append_assoc_str.
Qed.

Lemma split_token_of (u e sig : string) :
  contains delim u = false -> contains delim e = false ->
  contains delim sig = false ->
  split delim (token_of u e sig) = [u; e; sig].
Proof.
  intros Hu He Hs. unfold token_of.
  change (u ++ "|" ++ e ++ "|" ++ sig)
    with (u ++ String delim (e ++ String delim sig)).
  rewrite split_app_sep by assumption.
  rewrite split_app_sep by assumption.
  now rewrite split_no_sep.
Qed.

Lemma token_of_split (token u e sig : string) :
  split delim token = [u; e; sig] ->
  token = token_of u e sig /\
  contains delim u = false /\ contains delim e = false /\
  contains delim sig = false.
Proof.
  intros H. pose proof (split_fields delim token) as Hf. rewrite H in Hf.
  inversion Hf as [|? ? Hu Hf1].
  inversion Hf1 as [|? ? He Hf2].
  inversion Hf2 as [|? ? Hs _].
  split; [|auto].
  rewrite <- (join_split delim token) at 1. now rewrite H.
Qed.

(** The [try] block once the token has split into three fields. *)
Lemma parse_token_try_fields (SECRET : string) (now : datetime)
  (token u e sig : string) :
  split delim token = [u; e; sig] ->
  parse_token_try SECRET now token =
  if negb (sign SECRET u e =? sig) then Return Ret58
  else v <- int e ;;
       if (v <? int_timestamp now)%Z then Return Ret60 else Return (Ret61 u).
Proof. intros H. unfold parse_token_try. now rewrite H. Qed.

(** The [try] block when the token does not split into three fields. *)
Lemma parse_token_try_unpack (SECRET : string) (now : datetime)
  (token : string) :
  List.length (split delim token) <> 3%nat ->
  parse_token_try SECRET now token = Raise ValueError_unpack.
Proof.
  intros H. unfold parse_token_try.
  destruct (split delim token) as [|a [|b [|c [|d l]]]]; try reflexivity.
  now destruct H.
Qed.

Lemma int_timestamp_mono (a b : datetime) :
  (a <= b)%Z -> (int_timestamp a <= int_timestamp b)%Z.
Proof. intros H. apply Z.quot_le_mono; [reflexivity | exact H]. Qed.

Lemma int_timestamp_next_second (a : datetime) :
  (0 <= a)%Z -> int_timestamp (a + 1000000)%Z = (int_timestamp a + 1)%Z.
Proof.
  intros H. unfold int_timestamp.
  rewrite !Z.quot_div_nonneg by lia.
  replace (a + 1000000)%Z with (a + 1 * 1000000)%Z by lia.
  now rewrite Z.div_add by lia.
Qed.

(** A token made of three delimiter-free fields, correctly signed, with a
    readable expiry: the outcome is decided by the expiry comparison. *)
Lemma parse_token_try_signed (SECRET : string) (now : datetime)
  (u e : string) (v : Z) :
  contains delim u = false -> contains delim e = false ->
  int e = Return v ->
  parse_token_try SECRET now (token_of u e (sign SECRET u e)) =
  if (v <? int_timestamp now)%Z then Return Ret60 else Return (Ret61 u).
Proof.
  intros Hu He Hv.
  rewrite (parse_token_try_fields SECRET now _ u e (sign SECRET u e))
    by (apply split_token_of; try assumption;
        apply sha256_hexdigest_no_delim).
  now rewrite String.eqb_refl, Hv.
Qed.

(** A token of [make_token] is accepted up to its expiry. *)
Lemma make_token_accepted (SECRET : string) (t t' : datetime) (s : string) :
  contains delim s = false ->
  (t' <= t + timedelta_hours 24)%Z ->
  parse_token_try SECRET t' (make_token SECRET t s) = Return (Ret61 s).
Proof.
  intros Hs Ht. rewrite make_token_fields. cbv zeta.
  rewrite parse_token_try_signed
    with (v := int_timestamp (t + timedelta_hours 24)%Z);
    [| assumption | apply str_no_delim | apply int_str].
  apply int_timestamp_mono in Ht.
  destruct (Z.ltb_spec (int_timestamp (t + timedelta_hours 24)%Z)
                       (int_timestamp t')); [lia | reflexivity].
Qed.

(** ** The claims *)

(** C1.  A token issued for a user id without ['|'] is accepted, and yields
    that user id unchanged, at every clock reading up to 24 hours after the
    issuance (same [SECRET]).  The user id need not even be non-empty. *)
Theorem parse_make_token_roundtrip (SECRET : string) (t t' : datetime)
  (s : string) :
  contains delim s = false ->
  (t' <= t + timedelta_hours 24)%Z ->
  parse_token SECRET t' (make_token SECRET t s) = Return (Some s).
Proof.
  intros Hs Ht. unfold parse_token.
  now rewrite make_token_accepted.
Qed.

Lemma parse_make_token_roundtrip_witness :
  parse_token "dev-secret" 1700003600000000%Z
    (make_token "dev-secret" 1700000000123456%Z "u123") = Return (Some "u123").
Proof.
  apply (parse_make_token_roundtrip "dev-secret" 1700000000123456%Z
           1700003600000000%Z "u123"); [reflexivity | vm_compute; discriminate].
Defined.

Lemma parse_token_of_try (SECRET : string) (now : datetime) (token : string) :
  parse_token SECRET now token =
  Return (match parse_token_try SECRET now token with
          | Return r => value_of r
          | Raise _ => None
          end).
Proof. unfold parse_token. now destruct (parse_token_try _ _ _). Qed.

(** C2, as amended.  For a token that splits into three fields, carries the
    right signature and an expiry that [int] reads as [v] (a literal of at
    most 4300 digits: beyond, [int] raises): [parse_token] fails at the
    expiry comparison when [v] is strictly less than the clock reading in
    whole seconds, and returns the user id when [v] is greater than or equal
    to it. *)
Theorem expiry_comparison (SECRET : string) (now : datetime)
  (token u e sig : string) (v : Z) :
  split delim token = [u; e; sig] ->
  sign SECRET u e = sig ->
  int e = Return v ->
  (digit_count e <= int_max_str_digits)%nat ->
  ((v < int_timestamp now)%Z ->
   verify_error SECRET now token = Some Expired /\
   parse_token SECRET now token = Return None) /\
  ((int_timestamp now <= v)%Z ->
   verify_error SECRET now token = None /\
   parse_token SECRET now token = Return (Some u)).
Proof.
  intros Hsplit Hsig Hint _.
  unfold verify_error. rewrite parse_token_of_try.
  rewrite (parse_token_try_fields _ _ _ _ _ _ Hsplit), Hsig.
  rewrite String.eqb_refl, Hint. cbn [negb bind].
  split; intros Hv;
    destruct (Z.ltb_spec v (int_timestamp now)); try lia; now split.
Qed.

Lemma expiry_comparison_witness :
  verify_error "dev-secret" 86401000000%Z
    "u123|86400|1620c2597457bf3d37b080844a600986ef8655fb817f65a2335abaf874bac66e"
  = Some Expired.
Proof.
  refine (proj1 (proj1 (expiry_comparison "dev-secret" 86401000000%Z
    "u123|86400|1620c2597457bf3d37b080844a600986ef8655fb817f65a2335abaf874bac66e"
    "u123" "86400"
    "1620c2597457bf3d37b080844a600986ef8655fb817f65a2335abaf874bac66e"
    86400%Z _ _ _ _) _));
    try (vm_compute; reflexivity).
  unfold int_max_str_digits. apply Nat.leb_le. vm_compute. reflexivity.
Defined.

(** C2 as stated fails when the expiry equals the clock reading: the token
    issued at the epoch for ["u123"] expires at second 86400 and is still
    accepted at second 86400. *)
Lemma expiry_equal_to_now_accepted :
  split delim
    "u123|86400|1620c2597457bf3d37b080844a600986ef8655fb817f65a2335abaf874bac66e"
  = ["u123"; "86400";
     "1620c2597457bf3d37b080844a600986ef8655fb817f65a2335abaf874bac66e"] /\
  sign "dev-secret" "u123" "86400"
  = "1620c2597457bf3d37b080844a600986ef8655fb817f65a2335abaf874bac66e" /\
  int "86400" = Return 86400%Z /\
  (86400 <= int_timestamp 86400000000)%Z /\
  verify_error "dev-secret" 86400000000%Z
    "u123|86400|1620c2597457bf3d37b080844a600986ef8655fb817f65a2335abaf874bac66e"
  <> Some Expired /\
  parse_token "dev-secret" 86400000000%Z
    "u123|86400|1620c2597457bf3d37b080844a600986ef8655fb817f65a2335abaf874bac66e"
  = Return (Some "u123").
Proof. vm_compute. repeat split; discriminate. Qed.

(** C5.  A token whose split on ['|'] does not yield exactly three fields
    makes the unpacking raise: [parse_token] fails as malformed, whatever the
    fields hold. *)
Theorem wrong_field_count_malformed (SECRET : string) (now : datetime)
  (token : string) :
  List.length (split delim token) <> 3%nat ->
  verify_error SECRET now token = Some Malformed /\
  parse_token SECRET now token = Return None.
Proof.
  intros H. unfold verify_error. rewrite parse_token_of_try.
  now rewrite parse_token_try_unpack.
Qed.

Lemma wrong_field_count_malformed_witness :
  (verify_error "dev-secret" 0%Z "a|b" = Some Malformed /\
   parse_token "dev-secret" 0%Z "a|b" = Return None) /\
  (verify_error "dev-secret" 0%Z "a|b|c|d" = Some Malformed /\
   parse_token "dev-secret" 0%Z "a|b|c|d" = Return None).
Proof.
  split.
  - apply (wrong_field_count_malformed "dev-secret" 0%Z "a|b").
    vm_compute; discriminate.
  - apply (wrong_field_count_malformed "dev-secret" 0%Z "a|b|c|d").
    vm_compute; discriminate.
Defined.

(** C6.  A token issued at clock reading [t] (not before the epoch) for a
    user id without ['|'] fails at the expiry comparison when verified 24
    hours and one second later. *)
Theorem expired_after_window (SECRET : string) (t : datetime) (s : string) :
  contains delim s = false ->
  (0 <= t)%Z ->
  let later := (t + timedelta_hours 24 + 1000000)%Z in
  verify_error SECRET later (make_token SECRET t s) = Some Expired /\
  parse_token SECRET later (make_token SECRET t s) = Return None.
Proof.
  intros Hs Ht later. unfold verify_error. rewrite parse_token_of_try.
  rewrite make_token_fields. cbv zeta.
  rewrite parse_token_try_signed
    with (v := int_timestamp (t + timedelta_hours 24)%Z);
    [| assumption | apply str_no_delim | apply int_str].
  unfold later. rewrite int_timestamp_next_second
    by (unfold timedelta_hours; lia).
  destruct (Z.ltb_spec (int_timestamp (t + timedelta_hours 24)%Z)
                       (int_timestamp (t + timedelta_hours 24)%Z + 1)%Z);
    [now split | lia].
Qed.

Lemma expired_after_window_witness :
  verify_error "dev-secret" (1700000000123456 + timedelta_hours 24 + 1000000)%Z
    (make_token "dev-secret" 1700000000123456%Z "u123") = Some Expired /\
  parse_token "dev-secret" (1700000000123456 + timedelta_hours 24 + 1000000)%Z
    (make_token "dev-secret" 1700000000123456%Z "u123") = Return None.
Proof.
  apply (expired_after_window "dev-secret" 1700000000123456%Z "u123");
    [reflexivity | lia].
Defined.

(** The signature comparison comes first: with three fields and a signature
    that is not the one of the payload, the expiry is not even read. *)
Lemma signature_check_first (SECRET : string) (now : datetime)
  (u e sig : string) :
  contains delim u = false -> contains delim e = false ->
  contains delim sig = false ->
  sign SECRET u e <> sig ->
  parse_token_try SECRET now (token_of u e sig) = Return Ret58.
Proof.
  intros Hu He Hs Hne.
  rewrite (parse_token_try_fields SECRET now _ u e sig)
    by now apply split_token_of.
  now apply String.eqb_neq in Hne as ->.
Qed.

(** What a token accepted at some clock reading looks like. *)
Lemma accepted_token (SECRET : string) (now : datetime)
  (token u e sig uid : string) :
  split delim token = [u; e; sig] ->
  parse_token SECRET now token = Return (Some uid) ->
  uid = u /\ sign SECRET u e = sig /\
  exists v, int e = Return v /\ (int_timestamp now <= v)%Z.
Proof.
  intros Hsplit. rewrite parse_token_of_try.
  rewrite (parse_token_try_fields _ _ _ _ _ _ Hsplit).
  destruct (String.eqb_spec (sign SECRET u e) sig) as [Hs|Hs];
    [|discriminate].
  cbn [negb]. destruct (int e) as [v|ex]; [|discriminate]. cbn [bind].
  destruct (Z.ltb_spec v (int_timestamp now)); [discriminate|].
  cbn [value_of]. intros [= <-]. eauto.
Qed.

Lemma count_token_of (u e sig : string) :
  count delim (token_of u e sig)
  = (count delim u + count delim e + count delim sig + 2)%nat.
Proof.
  unfold token_of.
  change (u ++ "|" ++ e ++ "|" ++ sig)
    with (u ++ String delim (e ++ String delim sig)).
  rewrite count_app. cbn [count]. rewrite Ascii.eqb_refl.
  rewrite count_app. cbn [count]. rewrite Ascii.eqb_refl. lia.
Qed.

(** A delimiter inside any segment gives more than three fields. *)
Lemma split_token_of_extra (u e sig : string) :
  contains delim u || contains delim e || contains delim sig = true ->
  (3 < List.length (split delim (token_of u e sig)))%nat.
Proof.
  intros H. rewrite length_split, count_token_of.
  apply orb_prop in H as [H|H]; [apply orb_prop in H as [H|H]|];
    apply count_contains in H; lia.
Qed.

(** C3, as amended.  Take a token accepted at some clock reading and replace
    one character of its signature segment by a different one.  The result
    is never accepted: it fails at the signature comparison when the new
    character is not ['|'], and at the unpacking (four fields) when it is. *)
Theorem signature_mutation_rejected (SECRET : string) (now0 now : datetime)
  (token u e sig : string) (i : nat) (c c0 : ascii) :
  split delim token = [u; e; sig] ->
  parse_token SECRET now0 token = Return (Some u) ->
  String.get i sig = Some c0 ->
  c <> c0 ->
  parse_token SECRET now (token_of u e (set_char i c sig)) = Return None /\
  verify_error SECRET now (token_of u e (set_char i c sig))
  = Some (if Ascii.eqb c delim then Malformed else Tampered).
Proof.
  intros Hsplit Hok Hget Hc.
  destruct (accepted_token _ _ _ _ _ _ _ Hsplit Hok) as (_ & Hsig & _).
  destruct (token_of_split _ _ _ _ Hsplit) as (_ & Hu & He & Hs).
  pose proof (set_char_contains delim i c c0 sig Hget Hs) as Hc'.
  unfold verify_error. rewrite parse_token_of_try.
  destruct (Ascii.eqb c delim) eqn:E.
  - rewrite parse_token_try_unpack; [now split|].
    pose proof (split_token_of_extra u e (set_char i c sig)) as Hl.
    rewrite Hc', orb_true_r in Hl. specialize (Hl eq_refl). lia.
  - rewrite signature_check_first; try assumption; [now split|].
    rewrite Hsig. intros Heq. symmetry in Heq.
    exact (set_char_neq i c c0 sig Hget Hc Heq).
Qed.

Lemma signature_mutation_rejected_witness :
  parse_token "dev-secret" 1700003600000000%Z
    (token_of "u123" "1700086400"
       (set_char 0 "3"
          "2cd6b8ff3d6fc1fb206854d7fa8f2b28dc1d912c991d631ee9f8965ef4b969df"))
  = Return None /\
  verify_error "dev-secret" 1700003600000000%Z
    (token_of "u123" "1700086400"
       (set_char 0 "3"
          "2cd6b8ff3d6fc1fb206854d7fa8f2b28dc1d912c991d631ee9f8965ef4b969df"))
  = Some Tampered.
Proof.
  apply (signature_mutation_rejected "dev-secret" 1700003600000000%Z
    1700003600000000%Z
    "u123|1700086400|2cd6b8ff3d6fc1fb206854d7fa8f2b28dc1d912c991d631ee9f8965ef4b969df"
    "u123" "1700086400"
    "2cd6b8ff3d6fc1fb206854d7fa8f2b28dc1d912c991d631ee9f8965ef4b969df"
    0%nat "3"%char "2"%char);
    try (vm_compute; reflexivity); discriminate.
Defined.

(** C3 as stated fails when the new character is the delimiter: the token
    below is accepted one hour after its issuance; with the first character
    of its signature replaced by ['|'] it has four fields and fails at the
    unpacking, not at the signature comparison. *)
Lemma signature_mutation_to_delimiter :
  parse_token "dev-secret" 1700003600000000%Z
    "u123|1700086400|2cd6b8ff3d6fc1fb206854d7fa8f2b28dc1d912c991d631ee9f8965ef4b969df"
  = Return (Some "u123") /\
  token_of "u123" "1700086400"
    (set_char 0 "|"
       "2cd6b8ff3d6fc1fb206854d7fa8f2b28dc1d912c991d631ee9f8965ef4b969df")
  = "u123|1700086400||cd6b8ff3d6fc1fb206854d7fa8f2b28dc1d912c991d631ee9f8965ef4b969df" /\
  parse_token_try "dev-secret" 1700003600000000%Z
    "u123|1700086400||cd6b8ff3d6fc1fb206854d7fa8f2b28dc1d912c991d631ee9f8965ef4b969df"
  = Raise ValueError_unpack /\
  verify_error "dev-secret" 1700003600000000%Z
    "u123|1700086400||cd6b8ff3d6fc1fb206854d7fa8f2b28dc1d912c991d631ee9f8965ef4b969df"
  <> Some Tampered.
Proof. vm_compute. repeat split; discriminate. Qed.

(** C4.  Take a token accepted at some clock reading and replace its expiry
    segment by an earlier one, keeping the signature.  Unless SHA-256 gives
    the two payloads the same digest, the result fails at the signature
    comparison at every clock reading, also those at which the new expiry
    has passed: the signature is compared before the expiry is read. *)
Theorem earlier_expiry_is_tampered (SECRET : string) (now0 now : datetime)
  (token u e sig e' : string) (v v' : Z) :
  split delim token = [u; e; sig] ->
  parse_token SECRET now0 token = Return (Some u) ->
  int e = Return v ->
  int e' = Return v' ->
  (v' < v)%Z ->
  sign SECRET u e' <> sign SECRET u e ->
  verify_error SECRET now (token_of u e' sig) = Some Tampered /\
  parse_token SECRET now (token_of u e' sig) = Return None.
Proof.
  intros Hsplit Hok _ He' _ Hne.
  destruct (accepted_token _ _ _ _ _ _ _ Hsplit Hok) as (_ & Hsig & _).
  destruct (token_of_split _ _ _ _ Hsplit) as (_ & Hu & _ & Hs).
  unfold verify_error. rewrite parse_token_of_try.
  rewrite signature_check_first; try assumption; [now split| |congruence].
  exact (int_no_delim _ _ He').
Qed.

Lemma earlier_expiry_is_tampered_witness :
  verify_error "dev-secret" 1700003600000000%Z
    (token_of "u123" "1600000000"
       "2cd6b8ff3d6fc1fb206854d7fa8f2b28dc1d912c991d631ee9f8965ef4b969df")
  = Some Tampered /\
  parse_token "dev-secret" 1700003600000000%Z
    (token_of "u123" "1600000000"
       "2cd6b8ff3d6fc1fb206854d7fa8f2b28dc1d912c991d631ee9f8965ef4b969df")
  = Return None.
Proof.
  apply (earlier_expiry_is_tampered "dev-secret" 1700003600000000%Z
    1700003600000000%Z
    "u123|1700086400|2cd6b8ff3d6fc1fb206854d7fa8f2b28dc1d912c991d631ee9f8965ef4b969df"
    "u123" "1700086400"
    "2cd6b8ff3d6fc1fb206854d7fa8f2b28dc1d912c991d631ee9f8965ef4b969df"
    "1600000000" 1700086400%Z 1600000000%Z);
    try (vm_compute; reflexivity); vm_compute; discriminate.
Defined.

(** C7, as amended.  Whatever check fails, [parse_token] returns [None]: the
    three kinds of failure are distinct ways of leaving the [try] block but
    the same returned value, and the HTTP boundary answers them all with the
    same 401 response. *)
Theorem failure_returns_None (SECRET : string) (now : datetime)
  (token : string) (k : AuthError) :
  verify_error SECRET now token = Some k ->
  parse_token SECRET now token = Return None /\
  get_current_user_uid SECRET now token
  = inl (HTTPException 401 "Invalid or expired token").
Proof.
  unfold verify_error, get_current_user_uid. rewrite parse_token_of_try.
  destruct (parse_token_try SECRET now token) as [[| |uid]|ex];
    cbn [failed_check value_of]; intros H; try discriminate H; now split.
Qed.

Lemma failure_returns_None_witness :
  parse_token "dev-secret" 0%Z "u123|1700086400|0000" = Return None /\
  get_current_user_uid "dev-secret" 0%Z "u123|1700086400|0000"
  = inl (HTTPException 401 "Invalid or expired token").
Proof.
  apply (failure_returns_None "dev-secret" 0%Z "u123|1700086400|0000"
           Tampered).
  vm_compute; reflexivity.
Defined.

(** C7 as stated fails: a malformed, a tampered and an expired token leave
    the [try] block in three different ways, and [parse_token] returns the
    same value for all three. *)
Lemma failure_kinds_not_distinguishable :
  verify_error "dev-secret" 1700003600000000%Z "u123" = Some Malformed /\
  verify_error "dev-secret" 1700003600000000%Z "u123|1700086400|0000"
  = Some Tampered /\
  verify_error "dev-secret" 1700003600000000%Z
    "u123|86400|1620c2597457bf3d37b080844a600986ef8655fb817f65a2335abaf874bac66e"
  = Some Expired /\
  parse_token "dev-secret" 1700003600000000%Z "u123" = Return None /\
  parse_token "dev-secret" 1700003600000000%Z "u123|1700086400|0000"
  = Return None /\
  parse_token "dev-secret" 1700003600000000%Z
    "u123|86400|1620c2597457bf3d37b080844a600986ef8655fb817f65a2335abaf874bac66e"
  = Return None.
Proof. vm_compute. repeat split. Qed.

Lemma token_of_inj_expiry (u e1 e2 s1 s2 : string) :
  contains delim e1 = false -> contains delim e2 = false ->
  token_of u e1 s1 = token_of u e2 s2 -> e1 = e2 /\ s1 = s2.
Proof.
  intros H1 H2 H. unfold token_of in H.
  apply append_inv_head in H.
  change ("|" ++ e1 ++ "|" ++ s1) with (String delim (e1 ++ String delim s1))
    in H.
  change ("|" ++ e2 ++ "|" ++ s2) with (String delim (e2 ++ String delim s2))
    in H.
  injection H as H.
  assert (split delim (e1 ++ String delim s1)
          = split delim (e2 ++ String delim s2)) as Hs by now rewrite H.
  rewrite !split_app_sep in Hs by assumption.
  injection Hs as -> Hs. split; [reflexivity|].
  rewrite <- (join_split delim s1), <- (join_split delim s2).
  now rewrite Hs.
Qed.

(** Two tokens for the same user id are equal exactly when their expiries,
    in whole seconds, are. *)
Lemma make_token_eq_iff (SECRET : string) (t1 t2 : datetime) (s : string) :
  make_token SECRET t1 s = make_token SECRET t2 s <->
  int_timestamp (t1 + timedelta_hours 24)%Z
  = int_timestamp (t2 + timedelta_hours 24)%Z.
Proof.
  split.
  - rewrite !make_token_fields. cbv zeta. intros H.
    apply token_of_inj_expiry in H as [H _]; try apply str_no_delim.
    now apply str_inj.
  - unfold make_token. now intros ->.
Qed.

(** C8, as amended.  Two tokens issued for the same user id (without ['|'])
    at clock readings whose expiries fall in different whole seconds are
    different strings, and each is accepted up to 24 hours after its own
    issuance. *)
Theorem tokens_of_different_seconds (SECRET : string) (t1 t2 : datetime)
  (s : string) :
  contains delim s = false ->
  int_timestamp (t1 + timedelta_hours 24)%Z
  <> int_timestamp (t2 + timedelta_hours 24)%Z ->
  make_token SECRET t1 s <> make_token SECRET t2 s /\
  (forall now, (now <= t1 + timedelta_hours 24)%Z ->
     parse_token SECRET now (make_token SECRET t1 s) = Return (Some s)) /\
  (forall now, (now <= t2 + timedelta_hours 24)%Z ->
     parse_token SECRET now (make_token SECRET t2 s) = Return (Some s)).
Proof.
  intros Hs Hne. split; [|split].
  - intros H. now apply make_token_eq_iff in H.
  - intros now Hn. unfold parse_token. now rewrite make_token_accepted.
  - intros now Hn. unfold parse_token. now rewrite make_token_accepted.
Qed.

Lemma tokens_of_different_seconds_witness :
  make_token "dev-secret" 1700000000000000%Z "u123"
  <> make_token "dev-secret" 1700000001000000%Z "u123" /\
  (forall now, (now <= 1700000000000000 + timedelta_hours 24)%Z ->
     parse_token "dev-secret" now
       (make_token "dev-secret" 1700000000000000%Z "u123")
     = Return (Some "u123")) /\
  (forall now, (now <= 1700000001000000 + timedelta_hours 24)%Z ->
     parse_token "dev-secret" now
       (make_token "dev-secret" 1700000001000000%Z "u123")
     = Return (Some "u123")).
Proof.
  apply (tokens_of_different_seconds "dev-secret" 1700000000000000%Z
           1700000001000000%Z "u123"); [reflexivity | vm_compute; discriminate].
Defined.

(** C8 as stated fails for two clock readings within the same second: the
    expiry is kept in whole seconds, so the two tokens are the same string. *)
Lemma same_second_same_token :
  1700000000000000%Z <> 1700000000000001%Z /\
  make_token "dev-secret" 1700000000000000%Z "u123"
  = "u123|1700086400|2cd6b8ff3d6fc1fb206854d7fa8f2b28dc1d912c991d631ee9f8965ef4b969df" /\
  make_token "dev-secret" 1700000000000001%Z "u123"
  = "u123|1700086400|2cd6b8ff3d6fc1fb206854d7fa8f2b28dc1d912c991d631ee9f8965ef4b969df".
Proof. vm_compute. repeat split. discriminate. Qed.



(** C10.  [make_token] does not check the user id.  For a user id holding
    ['|'] it still returns a token, but one with more than three fields,
    which [parse_token] rejects at the unpacking; and within the validity
    window the token gives back the user id exactly when the user id holds
    no ['|']. *)
Theorem delimiter_in_user_id (SECRET : string) (t now : datetime)
  (s : string) :
  (contains delim s = true ->
   (3 < List.length (split delim (make_token SECRET t s)))%nat /\
   verify_error SECRET now (make_token SECRET t s) = Some Malformed /\
   parse_token SECRET now (make_token SECRET t s) = Return None) /\
  ((now <= t + timedelta_hours 24)%Z ->
   (parse_token SECRET now (make_token SECRET t s) = Return (Some s) <->
    contains delim s = false)).
Proof.
  assert (contains delim s = true ->
          (3 < List.length (split delim (make_token SECRET t s)))%nat) as Hlen.
  { intros Hs. rewrite make_token_fields. cbv zeta.
    apply split_token_of_extra. now rewrite Hs. }
  assert (contains delim s = true ->
          parse_token_try SECRET now (make_token SECRET t s)
          = Raise ValueError_unpack) as Hraise.
  { intros Hs. apply parse_token_try_unpack. specialize (Hlen Hs). lia. }
  split.
  - intros Hs. split; [now apply Hlen|].
    unfold verify_error. rewrite parse_token_of_try.
    now rewrite (Hraise Hs).
  - intros Hn. split.
    + destruct (contains delim s) eqn:Hs; [|reflexivity].
      rewrite parse_token_of_try, (Hraise eq_refl). discriminate.
    + intros Hs. unfold parse_token. now rewrite make_token_accepted.
Qed.

Lemma delimiter_in_user_id_witness :
  ((3 < List.length
          (split delim (make_token "dev-secret" 1700000000000000%Z "u|123")))%nat /\
   verify_error "dev-secret" 1700003600000000%Z
     (make_token "dev-secret" 1700000000000000%Z "u|123") = Some Malformed /\
   parse_token "dev-secret" 1700003600000000%Z
     (make_token "dev-secret" 1700000000000000%Z "u|123") = Return None) /\
  (parse_token "dev-secret" 1700003600000000%Z
     (make_token "dev-secret" 1700000000000000%Z "u123") = Return (Some "u123")
   <-> contains delim "u123" = false).
Proof.
  split.
  - apply (proj1 (delimiter_in_user_id "dev-secret" 1700000000000000%Z
                    1700003600000000%Z "u|123")). reflexivity.
  - apply (proj2 (delimiter_in_user_id "dev-secret" 1700000000000000%Z
                    1700003600000000%Z "u123")). vm_compute; discriminate.
Defined.

(** ** Passwords *)

Lemma length_append_str (a b : string) :
  String.length (a ++ b) = (String.length a + String.length b)%nat.
Proof. induction a as [|x a IH]; simpl; [reflexivity | now rewrite IH]. Qed.

Lemma length_hex_word (n : nat) (x : Z) : String.length (hex_word n x) = n.
Proof. induction n as [|n IH]; simpl; [reflexivity | now rewrite IH]. Qed.

Lemma length_hex_words (ws : list Z) :
  String.length (hex_words ws) = (8 * List.length ws)%nat.
Proof.
  induction ws as [|w ws IH]; [reflexivity|].
  cbn [hex_words List.length].
  rewrite length_append_str, length_hex_word, IH. lia.
Qed.

Lemma length_compress (h block : list Z) :
  List.length h = 8%nat -> List.length (SHA256.compress h block) = 8%nat.
Proof.
  intros H. unfold SHA256.compress.
  rewrite length_map, length_combine, H. reflexivity.
Qed.

Lemma length_blocks (n : nat) (h bs : list Z) :
  List.length h = 8%nat -> List.length (SHA256.blocks n h bs) = 8%nat.
Proof.
  revert h bs; induction n as [|n IH]; intros h bs H; simpl; [exact H|].
  apply IH. now apply length_compress.
Qed.

(** A digest is 64 characters long. *)
Lemma length_sha256_hexdigest (m : string) :
  String.length (sha256_hexdigest m) = 64%nat.
Proof.
  unfold sha256_hexdigest, SHA256.digest.
  rewrite length_hex_words, length_blocks; reflexivity.
Qed.

(** X1.  A password hash is 64 lower-case hexadecimal digits, whatever the
    password and the secret. *)
Theorem hash_password_format (SECRET pw : string) :
  String.length (hash_password SECRET pw) = 64%nat /\
  all_chars hex_char (hash_password SECRET pw) = true.
Proof.
  split; [apply length_sha256_hexdigest | apply sha256_hexdigest_hex].
Qed.

Lemma verify_password_wrong_length (SECRET pw hashed : string) :
  String.length hashed <> 64%nat -> verify_password SECRET pw hashed = false.
Proof.
  intros H. apply String.eqb_neq. intros E. apply H.
  rewrite <- E. apply length_sha256_hexdigest.
Qed.

(** X2.  [verify_password] accepts the hash of the password, and nothing
    else: a stored value it accepts is the hash of that password, so it is
    64 characters long; an empty or truncated stored value is refused for
    every password. *)
Theorem verify_password_exact (SECRET pw : string) :
  verify_password SECRET pw (hash_password SECRET pw) = true /\
  (forall hashed,
     verify_password SECRET pw hashed = true ->
     hashed = hash_password SECRET pw /\ String.length hashed = 64%nat) /\
  (forall hashed,
     String.length hashed <> 64%nat ->
     verify_password SECRET pw hashed = false).
Proof.
  unfold verify_password. split; [apply String.eqb_refl|]. split.
  - intros hashed H. apply String.eqb_eq in H. subst hashed.
    split; [reflexivity | apply length_sha256_hexdigest].
  - intros hashed. apply verify_password_wrong_length.
Qed.

Lemma verify_password_exact_witness :
  String.length "5f4dcc3b5aa765d61d8327deb882cf99" <> 64%nat /\
  verify_password "dev-secret" "password" "5f4dcc3b5aa765d61d8327deb882cf99"
  = false.
Proof.
  split; [vm_compute; discriminate|].
  apply (proj2 (proj2 (verify_password_exact "dev-secret" "password"))).
  vm_compute; discriminate.
Defined.

(** ** More on the token functions *)

(** How [parse_token] treats a token, at every clock reading: it raises, or
    fails at the signature, or is decided by the expiry the token carries. *)
Lemma parse_token_try_cases (SECRET token : string) :
  (exists ex, forall now, parse_token_try SECRET now token = Raise ex) \/
  (forall now, parse_token_try SECRET now token = Return Ret58) \/
  (exists u e v,
     split delim token = [u; e; sign SECRET u e] /\
     int e = Return v /\
     forall now,
       parse_token_try SECRET now token =
       if (v <? int_timestamp now)%Z then Return Ret60 else Return (Ret61 u)).
Proof.
  destruct (Nat.eq_dec (List.length (split delim token)) 3) as [Hl|Hl].
  - destruct (split delim token) as [|u [|e [|sig [|x l]]]] eqn:Hs;
      try discriminate Hl.
    destruct (String.eqb_spec (sign SECRET u e) sig) as [<-|Hne].
    + destruct (int e) as [v|ex] eqn:Hv.
      * right; right. exists u, e, v. repeat split; try assumption.
        intros now. rewrite (parse_token_try_fields _ _ _ _ _ _ Hs).
        now rewrite String.eqb_refl, Hv.
      * left. exists ex. intros now.
        rewrite (parse_token_try_fields _ _ _ _ _ _ Hs).
        now rewrite String.eqb_refl, Hv.
    + right; left. intros now.
      rewrite (parse_token_try_fields _ _ _ _ _ _ Hs).
      now apply String.eqb_neq in Hne as ->.
  - left. exists ValueError_unpack. intros now.
    now apply parse_token_try_unpack.
Qed.

(** X3.  Among the tokens that are ASCII text with at most 4300 digits,
    those [parse_token] accepts for a user id are exactly the strings
    [user_id|expiry|signature] whose user id holds no ['|'], whose expiry
    [int] reads as a second not before the clock reading, and whose
    signature is the digest of [user_id|expiry] followed by the secret. *)
Theorem parse_token_accepts_iff (SECRET : string) (now : datetime)
  (token u : string) :
  all_chars is_ascii token = true ->
  (digit_count token <= int_max_str_digits)%nat ->
  (parse_token SECRET now token = Return (Some u) <->
   exists e v,
     token = token_of u e (sign SECRET u e) /\
     contains delim u = false /\
     int e = Return v /\
     (int_timestamp now <= v)%Z).
Proof.
  intros _ _. split.
  - intros H.
    destruct (Nat.eq_dec (List.length (split delim token)) 3) as [Hl|Hl].
    + destruct (split delim token) as [|a [|e [|sig [|x l]]]] eqn:Hs;
        try discriminate Hl.
      destruct (accepted_token _ _ _ _ _ _ _ Hs H) as (-> & Hsig & v & Hv & Hle).
      destruct (token_of_split _ _ _ _ Hs) as (Ht & Hu & _ & _).
      exists e, v. rewrite Hsig. auto.
    + rewrite parse_token_of_try, parse_token_try_unpack in H by assumption.
      discriminate H.
  - intros (e & v & -> & Hu & Hv & Hle).
    rewrite parse_token_of_try.
    rewrite (parse_token_try_signed _ _ _ _ _ Hu (int_no_delim _ _ Hv) Hv).
    destruct (Z.ltb_spec v (int_timestamp now)); [lia | reflexivity].
Qed.

Lemma parse_token_accepts_iff_witness :
  exists e v,
    "u123|1700086400|2cd6b8ff3d6fc1fb206854d7fa8f2b28dc1d912c991d631ee9f8965ef4b969df"
    = token_of "u123" e (sign "dev-secret" "u123" e) /\
    contains delim "u123" = false /\
    int e = Return v /\
    (int_timestamp 1700003600000000 <= v)%Z.
Proof.
  refine (proj1 (parse_token_accepts_iff "dev-secret" 1700003600000000%Z
    "u123|1700086400|2cd6b8ff3d6fc1fb206854d7fa8f2b28dc1d912c991d631ee9f8965ef4b969df"
    "u123" _ _) _).
  - vm_compute; reflexivity.
  - unfold int_max_str_digits. apply Nat.leb_le. vm_compute; reflexivity.
  - vm_compute; reflexivity.
Defined.

(** X4.  [parse_token] has no not-before check and expiry is final: a token
    accepted at some clock reading is accepted at every earlier one, and a
    token that failed the expiry comparison fails it at every later one. *)
Theorem validity_monotone (SECRET : string) (now now' : datetime)
  (token : string) :
  (forall u, parse_token SECRET now token = Return (Some u) ->
             (now' <= now)%Z ->
             parse_token SECRET now' token = Return (Some u)) /\
  (verify_error SECRET now token = Some Expired ->
   (now <= now')%Z ->
   verify_error SECRET now' token = Some Expired).
Proof.
  unfold verify_error. rewrite !parse_token_of_try.
  destruct (parse_token_try_cases SECRET token)
    as [(ex & H) | [H | (u0 & e & v & _ & _ & H)]];
    rewrite !H; split; try discriminate.
  - intros u Hu Hle. apply int_timestamp_mono in Hle.
    destruct (Z.ltb_spec v (int_timestamp now)); [discriminate|].
    destruct (Z.ltb_spec v (int_timestamp now')); [lia | exact Hu].
  - intros He Hle. apply int_timestamp_mono in Hle.
    destruct (Z.ltb_spec v (int_timestamp now)); [|discriminate].
    destruct (Z.ltb_spec v (int_timestamp now')); [reflexivity | lia].
Qed.

Lemma validity_monotone_witness :
  parse_token "dev-secret" 0%Z
    "u123|1700086400|2cd6b8ff3d6fc1fb206854d7fa8f2b28dc1d912c991d631ee9f8965ef4b969df"
  = Return (Some "u123") /\
  verify_error "dev-secret" 1800000000000000%Z
    "u123|1700086400|2cd6b8ff3d6fc1fb206854d7fa8f2b28dc1d912c991d631ee9f8965ef4b969df"
  = Some Expired.
Proof.
  split.
  - apply (proj1 (validity_monotone "dev-secret" 1700003600000000%Z 0%Z
      "u123|1700086400|2cd6b8ff3d6fc1fb206854d7fa8f2b28dc1d912c991d631ee9f8965ef4b969df")
      "u123"); vm_compute; [reflexivity | discriminate].
  - apply (proj2 (validity_monotone "dev-secret" 1700090000000000%Z
      1800000000000000%Z
      "u123|1700086400|2cd6b8ff3d6fc1fb206854d7fa8f2b28dc1d912c991d631ee9f8965ef4b969df"));
      vm_compute; [reflexivity | discriminate].
Defined.

(** X5.  Only the expiry comparison reads the clock: a token rejected as
    malformed or tampered is rejected the same way at every clock reading. *)
Theorem structural_failures_ignore_clock (SECRET : string)
  (now now' : datetime) (token : string) (k : AuthError) :
  verify_error SECRET now token = Some k ->
  k <> Expired ->
  verify_error SECRET now' token = Some k.
Proof.
  unfold verify_error.
  destruct (parse_token_try_cases SECRET token)
    as [(ex & H) | [H | (u0 & e & v & _ & _ & H)]];
    rewrite !H; try exact (fun E _ => E).
  destruct (Z.ltb_spec v (int_timestamp now)); cbn [failed_check].
  - intros [= <-] Hk. now destruct Hk.
  - discriminate.
Qed.

Lemma structural_failures_ignore_clock_witness :
  verify_error "dev-secret" 1800000000000000%Z "u123|1700086400|0000"
  = Some Tampered.
Proof.
  apply (structural_failures_ignore_clock "dev-secret" 0%Z
           1800000000000000%Z "u123|1700086400|0000" Tampered);
    [vm_compute; reflexivity | discriminate].
Defined.

(** X6.  The signature of a token is the password hash of its payload:
    [make_token] signs with what [hash_password] returns for
    [user_id|expiry], and [parse_token] accepts a token signed with the
    password hash of its first two fields, when the user id holds no ['|']
    and the expiry is a literal of at most 4300 digits that [int] reads as
    a second not before the clock reading. *)
Theorem password_hash_signs_token (SECRET : string) (now t : datetime)
  (u e : string) (v : Z) :
  make_token SECRET t u
  = (u ++ "|" ++ str (int_timestamp (t + timedelta_hours 24)%Z)) ++ "|"
    ++ hash_password SECRET
         (u ++ "|" ++ str (int_timestamp (t + timedelta_hours 24)%Z)) /\
  (contains delim u = false ->
   int e = Return v ->
   (digit_count e <= int_max_str_digits)%nat ->
   (int_timestamp now <= v)%Z ->
   parse_token SECRET now
     (token_of u e (hash_password SECRET (u ++ "|" ++ e)))
   = Return (Some u)).
Proof.
  split; [reflexivity|]. intros Hu Hv _ Hle.
  rewrite parse_token_of_try.
  change (hash_password SECRET (u ++ "|" ++ e)) with (sign SECRET u e).
  rewrite (parse_token_try_signed _ _ _ _ _ Hu (int_no_delim _ _ Hv) Hv).
  destruct (Z.ltb_spec v (int_timestamp now)); [lia | reflexivity].
Qed.

Lemma password_hash_signs_token_witness :
  parse_token "dev-secret" 1700003600000000%Z
    (token_of "u123" "1700086400"
       (hash_password "dev-secret" "u123|1700086400"))
  = Return (Some "u123").
Proof.
  refine (proj2 (password_hash_signs_token "dev-secret" 1700003600000000%Z 0%Z
                   "u123" "1700086400" 1700086400%Z) _ _ _ _).
  - reflexivity.
  - vm_compute; reflexivity.
  - unfold int_max_str_digits. apply Nat.leb_le. vm_compute; reflexivity.
  - vm_compute; discriminate.
Defined.

(** ** Authentication of a request *)

Ltac run_call H :=
  let x := fresh "x" in
  let tr := fresh "tr" in
  let E := fresh "E" in
  cbn [runs pbind perform new_ObjectId log_activity HTTP] in H;
  destruct H as (x & tr & E & H); subst.

Ltac run_end H :=
  cbn [runs pbind perform new_ObjectId log_activity HTTP] in H;
  let E := fresh "E" in
  destruct H as [E H]; try discriminate H; try (injection H as H); subst.

(** The same for [executes]: [exe_call] leaves the execution in which the
    call raised as a goal of its own, first. *)
Ltac exe_call H :=
  let x := fresh "x" in
  let tr := fresh "tr" in
  cbn [executes pbind perform new_ObjectId log_activity HTTP] in H;
  destruct H as [[-> ->] | (x & tr & -> & H)].

Ltac exe_end H :=
  cbn [executes pbind perform new_ObjectId log_activity HTTP] in H;
  destruct H as [-> ->].

(** A run is an execution. *)
Lemma runs_executes {A : Type} (p : prog A) (tr : list event)
  (o : exception + A) :
  runs p tr o -> executes p tr (Ended o).
Proof.
  revert tr. induction p as [a|e|X c k IH]; cbn [runs executes]; intros tr.
  - now intros [-> ->].
  - now intros [-> ->].
  - intros (x & tr' & -> & H). right. exists x, tr'. split; [reflexivity|].
    now apply IH.
Qed.

(** An execution that does not end with a call raising is a run. *)
Lemma executes_runs {A : Type} (p : prog A) (tr : list event)
  (o : exception + A) :
  executes p tr (Ended o) -> runs p tr o.
Proof.
  revert tr. induction p as [a|e|X c k IH]; cbn [runs executes]; intros tr.
  - now intros [-> [= ->]].
  - now intros [-> [= ->]].
  - intros [[_ H] | (x & tr' & -> & H)]; [discriminate H|].
    exists x, tr'. split; [reflexivity|]. now apply IH.
Qed.

(** The part of [get_current_user] after the token has given a user id. *)
Lemma get_current_user_lookup (SECRET : string) (now : datetime)
  (token uid : string) :
  parse_token SECRET now token = Return (Some uid) ->
  uid <> "" ->
  get_current_user SECRET now token =
  (o <~ new_ObjectId uid ;;
   user <~ perform (find_one "libraryuser" [("_id", VObjectId o)]) ;;
   match user with
   | None => HTTP 401 "User not found"
   | Some u => Done u
   end).
Proof.
  intros H Hne. unfold get_current_user. rewrite H.
  now apply String.eqb_neq in Hne as ->.
Qed.

Lemma get_current_user_refused (SECRET : string) (now : datetime)
  (token : string) :
  parse_token SECRET now token = Return None \/
  parse_token SECRET now token = Return (Some "") ->
  get_current_user SECRET now token = HTTP 401 "Invalid or expired token".
Proof. unfold get_current_user. now intros [-> | ->]. Qed.

(** The user id a token gives, if any. *)
Lemma parse_token_value (SECRET : string) (now : datetime) (token : string) :
  exists v, parse_token SECRET now token = Return v.
Proof. rewrite parse_token_of_try. eauto. Qed.

(** The runs of [get_current_user]. *)
Lemma get_current_user_runs (SECRET : string) (now : datetime)
  (token : string) (tr : list event) (out : exception + document) :
  runs (get_current_user SECRET now token) tr out ->
  (tr = [] /\
   out = inl (Http (HTTPException 401 "Invalid or expired token")) /\
   (parse_token SECRET now token = Return None \/
    parse_token SECRET now token = Return (Some ""))) \/
  (exists uid,
     parse_token SECRET now token = Return (Some uid) /\ uid <> "" /\
     ((tr = [Event (ObjectId uid) None] /\ out = inl InvalidId) \/
      (exists o,
         tr = [Event (ObjectId uid) (Some o);
               Event (find_one "libraryuser" [("_id", VObjectId o)]) None] /\
         out = inl (Http (HTTPException 401 "User not found"))) \/
      (exists o user,
         tr = [Event (ObjectId uid) (Some o);
               Event (find_one "libraryuser" [("_id", VObjectId o)])
                     (Some user)] /\
         out = inr user))).
Proof.
  destruct (parse_token_value SECRET now token) as [[uid|] Hv].
  - destruct (String.eqb_spec uid "") as [->|Hne].
    + rewrite get_current_user_refused by auto.
      intros H. run_end H. left. auto.
    + rewrite (get_current_user_lookup _ _ _ _ Hv Hne).
      intros H. right. exists uid. split; [assumption|]. split; [assumption|].
      run_call H. destruct x as [o|].
      * run_call H. destruct x as [user|]; run_end H.
        -- right; right. now exists o, user.
        -- right; left. now exists o.
      * run_end H. now left.
  - rewrite get_current_user_refused by auto.
    intros H. run_end H. left. auto.
Qed.

(** X7.  [get_current_user] returns a user document only for a token that
    [parse_token] accepts with a non-empty user id, and then it is the
    document the database gave for that id; it only reads the database. *)
Theorem get_current_user_sound (SECRET : string) (now : datetime)
  (token : string) (tr : list event) (user : document) :
  runs (get_current_user SECRET now token) tr (inr user) ->
  exists uid o,
    parse_token SECRET now token = Return (Some uid) /\
    uid <> "" /\
    tr = [Event (ObjectId uid) (Some o);
          Event (find_one "libraryuser" [("_id", VObjectId o)]) (Some user)] /\
    written tr = [].
Proof.
  intros H. apply get_current_user_runs in H.
  destruct H as [(_ & H & _) | (uid & Hv & Hne & H)]; [discriminate H|].
  destruct H as [(_ & H) | [(o & _ & H) | (o & u & -> & [= ->])]];
    try discriminate H.
  now exists uid, o.
Qed.

Lemma get_current_user_sound_witness :
  exists uid o,
    parse_token "dev-secret" 1700003600000000%Z
      "u123|1700086400|2cd6b8ff3d6fc1fb206854d7fa8f2b28dc1d912c991d631ee9f8965ef4b969df"
    = Return (Some uid) /\
    uid <> "" /\
    [Event (ObjectId "u123") (Some "u123");
     Event (find_one "libraryuser" [("_id", VObjectId "u123")])
           (Some (Document "u123" [("role", VStr "user")]))]
    = [Event (ObjectId uid) (Some o);
       Event (find_one "libraryuser" [("_id", VObjectId o)])
             (Some (Document "u123" [("role", VStr "user")]))] /\
    written
      [Event (ObjectId "u123") (Some "u123");
       Event (find_one "libraryuser" [("_id", VObjectId "u123")])
             (Some (Document "u123" [("role", VStr "user")]))] = [].
Proof.
  apply (get_current_user_sound "dev-secret" 1700003600000000%Z
    "u123|1700086400|2cd6b8ff3d6fc1fb206854d7fa8f2b28dc1d912c991d631ee9f8965ef4b969df").
  vm_compute. eexists _, _. split; [reflexivity|].
  eexists _, _. split; [reflexivity|]. split; reflexivity.
Defined.

(** X8.  The empty user id: [make_token] signs it and [parse_token] accepts
    the token and returns [""], but [get_current_user] answers such a token
    like an invalid one, with 401 and without a call to the database. *)
Theorem empty_user_id_refused (SECRET : string) (t now : datetime)
  (tr : list event) (out : exception + document) :
  (now <= t + timedelta_hours 24)%Z ->
  parse_token SECRET now (make_token SECRET t "") = Return (Some "") /\
  (runs (get_current_user SECRET now (make_token SECRET t "")) tr out ->
   tr = [] /\
   out = inl (Http (HTTPException 401 "Invalid or expired token"))).
Proof.
  intros Hle.
  assert (parse_token SECRET now (make_token SECRET t "") = Return (Some ""))
    as Hp by (unfold parse_token; now rewrite make_token_accepted).
  split; [exact Hp|].
  rewrite get_current_user_refused by auto.
  intros H. run_end H. auto.
Qed.

Lemma empty_user_id_refused_witness :
  parse_token "dev-secret" 1700003600000000%Z
    (make_token "dev-secret" 1700000000000000%Z "") = Return (Some "").
Proof.
  apply (empty_user_id_refused "dev-secret" 1700000000000000%Z
           1700003600000000%Z [] (inl InvalidId)).
  vm_compute; discriminate.
Defined.

(** X9.  A token of [make_token] for a non-empty user id without ['|'],
    presented within 24 hours, makes [get_current_user] look that id up:
    it returns the document the database holds for it, and answers 401
    "User not found" when there is none. *)
Theorem issued_token_authenticates (SECRET : string) (t now : datetime)
  (uid : string) (o : oid) (user : document) :
  uid <> "" ->
  contains delim uid = false ->
  (now <= t + timedelta_hours 24)%Z ->
  runs (get_current_user SECRET now (make_token SECRET t uid))
       [Event (ObjectId uid) (Some o);
        Event (find_one "libraryuser" [("_id", VObjectId o)]) (Some user)]
       (inr user) /\
  runs (get_current_user SECRET now (make_token SECRET t uid))
       [Event (ObjectId uid) (Some o);
        Event (find_one "libraryuser" [("_id", VObjectId o)]) None]
       (inl (Http (HTTPException 401 "User not found"))).
Proof.
  intros Hne Hd Hle.
  rewrite (get_current_user_lookup SECRET now _ uid);
    [| unfold parse_token; now rewrite make_token_accepted | assumption].
  split; cbn; eexists _, _; (split; [reflexivity|]);
    eexists _, _; (split; [reflexivity|]); now split.
Qed.

Lemma issued_token_authenticates_witness :
  runs (get_current_user "dev-secret" 1700003600000000%Z
          (make_token "dev-secret" 1700000000000000%Z "u123"))
       [Event (ObjectId "u123") (Some "u123");
        Event (find_one "libraryuser" [("_id", VObjectId "u123")])
              (Some (Document "u123" []))]
       (inr (Document "u123" [])).
Proof.
  refine (proj1 (issued_token_authenticates "dev-secret" 1700000000000000%Z
                   1700003600000000%Z "u123" "u123" (Document "u123" [])
                   _ _ _));
    [discriminate | reflexivity | vm_compute; discriminate].
Defined.

(** ** Registration and login *)

(** A token for a user id without ['|'] is accepted for 24 hours. *)
Lemma bearer_token_accepted (SECRET : string) (t now : datetime)
  (uid : string) :
  contains delim uid = false ->
  (now <= t + timedelta_hours 24)%Z ->
  parse_token SECRET now (make_token SECRET t uid) = Return (Some uid).
Proof.
  intros Hd Hle. unfold parse_token. now rewrite make_token_accepted.
Qed.

(** X10.  A run of [register] that returns a token found no user with the
    email, then stored a user with role ["user"], the given name and email
    and a password hash that [verify_password] accepts for the password,
    then logged the activity; the token is the one of [make_token] for the
    id [create_document] returned, so within 24 hours [parse_token] gives
    that id back (when it holds no ['|']). *)
Theorem register_success (SECRET : string) (now : datetime)
  (payload : RegisterPayload.t) (tr : list event) (tok : Token.t) :
  runs (register SECRET now payload) tr (inr tok) ->
  exists user uid aid,
    tr = [Event (find_one "libraryuser"
                   [("email", VStr (RegisterPayload.email payload))]) None;
          Event (create_document "libraryuser" (MLibraryUser user)) uid;
          Event (create_document "activity"
                   (MActivity
                      (Activity.mk (Some uid) "register"
                         [("email", VStr (RegisterPayload.email payload))])))
                aid] /\
    LibraryUser.role user = "user" /\
    LibraryUser.name user = RegisterPayload.name payload /\
    LibraryUser.email user = RegisterPayload.email payload /\
    verify_password SECRET (RegisterPayload.password payload)
      (LibraryUser.password_hash user) = true /\
    tok = Token.mk (make_token SECRET now uid) "bearer" /\
    (contains delim uid = false ->
     forall now', (now' <= now + timedelta_hours 24)%Z ->
       parse_token SECRET now' (Token.access_token tok) = Return (Some uid)).
Proof.
  unfold register. intros H.
  run_call H. destruct x as [d|]; [now run_end H|].
  run_call H. run_call H. run_end H.
  eexists _, x, x0. split; [reflexivity|].
  cbn [LibraryUser.role LibraryUser.name LibraryUser.email
       LibraryUser.password_hash Token.access_token].
  repeat split.
  - apply String.eqb_refl.
  - intros Hd now' Hle. now apply bearer_token_accepted.
Qed.

Lemma register_success_witness :
  exists user uid aid,
    [Event (find_one "libraryuser" [("email", VStr "a@b.c")]) None;
     Event (create_document "libraryuser"
              (MLibraryUser
                 (LibraryUser.mk "Ann" "a@b.c"
                    (hash_password "dev-secret" "pw") "user" None
                    (Some [("theme", VStr "light"); ("fontSize", VInt 16);
                           ("highContrast", VBool false)]) true))) "u123";
     Event (create_document "activity"
              (MActivity (Activity.mk (Some "u123") "register"
                            [("email", VStr "a@b.c")]))) "a1"]
    = [Event (find_one "libraryuser"
                [("email", VStr (RegisterPayload.email
                                   (RegisterPayload.mk "Ann" "a@b.c" "pw")))])
             None;
       Event (create_document "libraryuser" (MLibraryUser user)) uid;
       Event (create_document "activity"
                (MActivity
                   (Activity.mk (Some uid) "register"
                      [("email", VStr (RegisterPayload.email
                                         (RegisterPayload.mk "Ann" "a@b.c"
                                            "pw")))]))) aid] /\
    LibraryUser.role user = "user" /\
    LibraryUser.name user
    = RegisterPayload.name (RegisterPayload.mk "Ann" "a@b.c" "pw") /\
    LibraryUser.email user
    = RegisterPayload.email (RegisterPayload.mk "Ann" "a@b.c" "pw") /\
    verify_password "dev-secret"
      (RegisterPayload.password (RegisterPayload.mk "Ann" "a@b.c" "pw"))
      (LibraryUser.password_hash user) = true /\
    Token.mk (make_token "dev-secret" 1700000000000000%Z "u123") "bearer"
    = Token.mk (make_token "dev-secret" 1700000000000000%Z uid) "bearer" /\
    (contains delim uid = false ->
     forall now', (now' <= 1700000000000000 + timedelta_hours 24)%Z ->
       parse_token "dev-secret" now'
         (Token.access_token
            (Token.mk (make_token "dev-secret" 1700000000000000%Z "u123")
               "bearer"))
       = Return (Some uid)).
Proof.
  refine (register_success "dev-secret" 1700000000000000%Z
            (RegisterPayload.mk "Ann" "a@b.c" "pw") _ _ _).
  unfold register.
  cbn [runs pbind perform RegisterPayload.email RegisterPayload.name
       RegisterPayload.password].
  eexists _, _. split; [reflexivity|].
  eexists _, _. split; [reflexivity|].
  eexists _, _. split; [reflexivity|]. split; reflexivity.
Defined.

(** X11.  The only [HTTPException] [register] raises is 400 "Email already
    registered": it is raised when the database returned a user with the
    email, as the first thing after that answer and before anything is
    written.  This holds also of the executions in which a call to the
    database raises. *)
Theorem register_failure (SECRET : string) (now : datetime)
  (payload : RegisterPayload.t) (tr : list event) (o : ending Token.t) :
  executes (register SECRET now payload) tr o ->
  (forall r, o = Ended (inl (Http r)) ->
     r = HTTPException 400 "Email already registered" /\
     written tr = [] /\
     exists d,
       tr = [Event (find_one "libraryuser"
                      [("email", VStr (RegisterPayload.email payload))])
                   (Some d)]) /\
  (forall d,
     hd_error (found tr)
     = Some ("libraryuser",
             [("email", VStr (RegisterPayload.email payload))], Some d) ->
     o = Ended (inl (Http (HTTPException 400 "Email already registered"))) /\
     written tr = []).
Proof.
  unfold register. intros H.
  exe_call H; [split; [discriminate | intros d Hd; discriminate Hd]|].
  destruct x as [d|].
  - exe_end H. split.
    + intros r [= <-]. repeat split. now exists d.
    + intros d' _. now split.
  - split.
    + intros r Hr.
      exe_call H; [discriminate Hr|].
      exe_call H; [discriminate Hr|].
      exe_end H. discriminate Hr.
    + intros d' Hd. exfalso.
      exe_call H; [discriminate Hd|].
      exe_call H; [discriminate Hd|].
      exe_end H. discriminate Hd.
Qed.

Lemma register_failure_witness :
  @Ended Token.t (inl (Http (HTTPException 400 "Email already registered")))
  = Ended (inl (Http (HTTPException 400 "Email already registered"))) /\
  written
    [Event (find_one "libraryuser" [("email", VStr "a@b.c")])
           (Some (Document "u1" []))] = [].
Proof.
  refine (proj2 (register_failure "dev-secret" 0%Z
                   (RegisterPayload.mk "Ann" "a@b.c" "pw") _ _ _)
            (Document "u1" []) _).
  - unfold register.
    cbn [executes pbind perform RegisterPayload.email HTTP].
    right. eexists _, _. split; [reflexivity|]. split; reflexivity.
  - reflexivity.
Defined.

(** X12.  A run of [login] that returns a token found a user with the given
    email whose stored [password_hash] is the hash of the given password;
    it wrote nothing but the activity entry, and the token is the one of
    [make_token] for that user's id, which [parse_token] gives back within
    24 hours (when it holds no ['|']). *)
Theorem login_success (SECRET : string) (now : datetime)
  (username password : string) (tr : list event) (tok : Token.t) :
  runs (login SECRET now username password) tr (inr tok) ->
  exists u aid,
    tr = [Event (find_one "libraryuser" [("email", VStr username)]) (Some u);
          Event (create_document "activity"
                   (MActivity (Activity.mk (Some (_id u)) "login" []))) aid] /\
    doc_get "password_hash" u = Some (VStr (hash_password SECRET password)) /\
    tok = Token.mk (make_token SECRET now (_id u)) "bearer" /\
    (contains delim (_id u) = false ->
     forall now', (now' <= now + timedelta_hours 24)%Z ->
       parse_token SECRET now' (Token.access_token tok)
       = Return (Some (_id u))).
Proof.
  unfold login. intros H.
  run_call H. destruct x as [u|]; [|now run_end H].
  destruct (doc_get "password_hash" u) as [v|] eqn:Hg.
  - destruct v as [| | |h| | | |];
      cbn [verify_password_value negb] in H; try now run_end H.
    unfold verify_password in H.
    destruct (String.eqb_spec (hash_password SECRET password) h) as [<-|];
      cbn [negb] in H; [|now run_end H].
    run_call H. run_end H. exists u, x.
    split; [reflexivity|]. split; [exact Hg|]. split; [reflexivity|].
    intros Hd now' Hle. now apply bearer_token_accepted.
  - cbn [verify_password_value] in H.
    rewrite verify_password_wrong_length in H by discriminate.
    now run_end H.
Qed.

Lemma login_success_witness :
  exists u aid,
    [Event (find_one "libraryuser" [("email", VStr "a@b.c")])
           (Some (Document "u123"
                    [("password_hash",
                      VStr (hash_password "dev-secret" "pw"))]));
     Event (create_document "activity"
              (MActivity (Activity.mk (Some "u123") "login" []))) "a1"]
    = [Event (find_one "libraryuser" [("email", VStr "a@b.c")]) (Some u);
       Event (create_document "activity"
                (MActivity (Activity.mk (Some (_id u)) "login" []))) aid] /\
    doc_get "password_hash" u = Some (VStr (hash_password "dev-secret" "pw")) /\
    Token.mk (make_token "dev-secret" 1700000000000000%Z "u123") "bearer"
    = Token.mk (make_token "dev-secret" 1700000000000000%Z (_id u)) "bearer" /\
    (contains delim (_id u) = false ->
     forall now', (now' <= 1700000000000000 + timedelta_hours 24)%Z ->
       parse_token "dev-secret" now'
         (Token.access_token
            (Token.mk (make_token "dev-secret" 1700000000000000%Z "u123")
               "bearer"))
       = Return (Some (_id u))).
Proof.
  refine (login_success "dev-secret" 1700000000000000%Z "a@b.c" "pw" _ _ _).
  unfold login. cbn [runs pbind perform].
  eexists _, _. split; [reflexivity|].
  cbn [doc_get as_dict dict_get _id fields].
  change ("_id" =? "password_hash") with false.
  change ("password_hash" =? "password_hash") with true.
  cbn [verify_password_value]. unfold verify_password.
  rewrite String.eqb_refl.
  cbn [negb runs pbind perform log_activity _id].
  eexists _, _. split; [reflexivity|]. split; reflexivity.
Defined.

(** X13.  The only [HTTPException] [login] raises is 401 "Invalid
    credentials", and it is raised before anything is written; and [login]
    raises it for every password when the user found has no
    [password_hash] field, or one that is not a string of 64 characters.
    This holds also of the executions in which a call to the database
    raises. *)
Theorem login_failure (SECRET : string) (now : datetime)
  (username password : string) (tr : list event) (o : ending Token.t) :
  executes (login SECRET now username password) tr o ->
  (forall r, o = Ended (inl (Http r)) ->
     r = HTTPException 401 "Invalid credentials" /\ written tr = []) /\
  (forall u,
     hd_error (found tr)
     = Some ("libraryuser", [("email", VStr username)], Some u) ->
     (forall h, doc_get "password_hash" u = Some (VStr h) ->
                String.length h <> 64%nat) ->
     o = Ended (inl (Http (HTTPException 401 "Invalid credentials")))).
Proof.
  unfold login. intros H.
  exe_call H; [split; [discriminate | intros u Hu; discriminate Hu]|].
  destruct x as [u|].
  - destruct (doc_get "password_hash" u) as [v|] eqn:Hg.
    + destruct v as [| | |h| | | |];
        cbn [verify_password_value negb] in H;
        try (exe_end H; split; [now intros r [= <-] | reflexivity]).
      destruct (verify_password SECRET password h) eqn:Hv; cbn [negb] in H.
      * split.
        -- intros r Hr. exe_call H; [discriminate Hr|].
           exe_end H. discriminate Hr.
        -- intros u' [= <-] Hlen. exfalso.
           apply (Hlen h Hg).
           apply String.eqb_eq in Hv. rewrite <- Hv.
           apply length_sha256_hexdigest.
      * exe_end H. split; [now intros r [= <-] | reflexivity].
    + cbn [verify_password_value] in H.
      rewrite verify_password_wrong_length in H by discriminate.
      exe_end H. split; [now intros r [= <-] | reflexivity].
  - exe_end H. split; [now intros r [= <-] | reflexivity].
Qed.

Lemma login_failure_witness :
  @Ended Token.t (inl (Http (HTTPException 401 "Invalid credentials")))
  = Ended (inl (Http (HTTPException 401 "Invalid credentials"))).
Proof.
  refine (proj2 (login_failure "dev-secret" 0%Z "a@b.c" "pw"
                   [Event (find_one "libraryuser" [("email", VStr "a@b.c")])
                          (Some (Document "u123" [("name", VStr "Ann")]))]
                   (Ended (inl (Http (HTTPException 401 "Invalid credentials"))))
                   _)
                (Document "u123" [("name", VStr "Ann")]) _ _).
  - unfold login. cbn [executes pbind perform].
    right. eexists _, _. split; [reflexivity|].
    vm_compute. split; reflexivity.
  - reflexivity.
  - intros h H. vm_compute in H. discriminate H.
Defined.

(** ** Dictionaries *)

Lemma dict_get_pop_same (k : string) (d : dict) :
  dict_get k (dict_pop k d) = None.
Proof.
  induction d as [|[k' v] r IH]; [reflexivity|]. simpl.
  destruct (k' =? k) eqn:E; [exact IH|]. simpl. now rewrite E.
Qed.

Lemma dict_get_pop_other (k k' : string) (d : dict) :
  k <> k' -> dict_get k (dict_pop k' d) = dict_get k d.
Proof.
  intros Hne. induction d as [|[k0 v] r IH]; [reflexivity|]. simpl.
  destruct (String.eqb_spec k0 k') as [->|E0].
  - rewrite IH. apply String.eqb_neq in Hne.
    now rewrite String.eqb_sym, Hne.
  - simpl. now rewrite IH.
Qed.

Lemma dict_get_in_keys (k : string) (v : value) (d : dict) :
  dict_get k d = Some v -> In k (dict_keys d).
Proof.
  induction d as [|[k' v'] r IH]; [discriminate|]. simpl.
  destruct (String.eqb_spec k' k) as [->|]; [now left | right; auto].
Qed.

Lemma is_None_spec (v : value) : is_None v = true <-> v = VNone.
Proof. destruct v; simpl; split; congruence. Qed.

(** A comprehension that drops the [None] values keeps every other entry. *)
Lemma dict_get_without_None (k : string) (v : value) (d : dict) :
  NoDup (dict_keys d) ->
  dict_get k (without_None d) = Some v <->
  dict_get k d = Some v /\ v <> VNone.
Proof.
  induction d as [|[k' v'] r IH]; intros Hnd.
  - simpl. split; [discriminate | now intros [H _]].
  - inversion Hnd as [|? ? Hnotin Hnd']; subst. specialize (IH Hnd').
    unfold without_None in *. cbn [filter snd dict_get].
    destruct (is_None v') eqn:Hn; cbn [negb].
    + apply is_None_spec in Hn. subst v'.
      destruct (String.eqb_spec k' k) as [->|Hk].
      * split.
        -- intros H. apply IH in H as [H _].
           apply dict_get_in_keys in H. contradiction.
        -- intros [[= <-] H]. now destruct H.
      * exact IH.
    + cbn [dict_get]. destruct (String.eqb_spec k' k) as [->|Hk].
      * split.
        -- intros [= <-]. split; [reflexivity|].
           intros ->. discriminate Hn.
        -- now intros [H _].
      * exact IH.
Qed.

Lemma UpdateBookPayload_dict_keys (payload : UpdateBookPayload.t) :
  dict_keys (UpdateBookPayload_dict payload)
  = ["title"; "author"; "genre"; "year"; "isbn"; "description"; "cover_url";
     "file_url"; "tags"; "featured"].
Proof. reflexivity. Qed.

(** X14.  The response of [me] never holds the password hash; its [_id] is
    the text of the user's id, and every other field of the user document
    is passed on unchanged. *)
Theorem me_hides_password_hash (current : document) :
  dict_get "password_hash" (me current) = None /\
  dict_get "_id" (me current) = Some (VStr (_id current)) /\
  (forall k, k <> "password_hash" -> k <> "_id" ->
             dict_get k (me current) = dict_get k (fields current)).
Proof.
  unfold me. split; [apply dict_get_pop_same|].
  assert (stringify_id current = ("_id", VStr (_id current)) :: fields current)
    as -> by reflexivity.
  split.
  - now rewrite dict_get_pop_other by discriminate.
  - intros k Hp Hi. rewrite dict_get_pop_other by assumption.
    cbn [dict_get]. apply not_eq_sym, String.eqb_neq in Hi. now rewrite Hi.
Qed.

Lemma me_hides_password_hash_witness :
  dict_get "email"
    (me (Document "u123" [("email", VStr "a@b.c");
                          ("password_hash", VStr "00")]))
  = dict_get "email"
      (fields (Document "u123" [("email", VStr "a@b.c");
                                ("password_hash", VStr "00")])).
Proof.
  refine (proj2 (proj2 (me_hides_password_hash
                          (Document "u123" [("email", VStr "a@b.c");
                                            ("password_hash", VStr "00")])))
            "email" _ _); discriminate.
Defined.

(** X21.  The update [update_book] sends under [$set] holds exactly the
    fields of the payload that are not [None], with the payload's values:
    no field is ever set to [None], and a field given as 0, as the empty
    string or as [False] is set. *)
Theorem update_without_None (payload : UpdateBookPayload.t)
  (k : string) (v : value) :
  dict_get k (without_None (UpdateBookPayload_dict payload)) = Some v <->
  dict_get k (UpdateBookPayload_dict payload) = Some v /\ v <> VNone.
Proof.
  apply dict_get_without_None. rewrite UpdateBookPayload_dict_keys.
  repeat (constructor; [simpl; intuition discriminate|]). constructor.
Qed.

Lemma update_without_None_witness :
  dict_get "year"
    (without_None
       (UpdateBookPayload_dict
          (UpdateBookPayload.mk None None None (Some 0%Z) None None None None
             None (Some false))))
  = Some (VInt 0).
Proof.
  refine (proj2 (update_without_None
                   (UpdateBookPayload.mk None None None (Some 0%Z) None None
                      None None None (Some false)) "year" (VInt 0)) _).
  split; [reflexivity | discriminate].
Defined.


(** ** The handlers *)


Lemma written_app (tr1 tr2 : list event) :
  written (tr1 ++ tr2) = (written tr1 ++ written tr2)%list.
Proof. apply flat_map_app. Qed.


Lemma ne_str_false (v : option value) (s : string) :
  ne_str v s = false <-> v = Some (VStr s).
Proof.
  unfold ne_str. destruct v as [[| | |r| | | |]|]; try (split; discriminate).
  destruct (String.eqb_spec r s) as [->|Hne]; cbn [negb].
  - split; reflexivity.
  - split; [discriminate | intros [= E]; contradiction].
Qed.




(** X16.  [borrow_book] stores a borrow only for the authenticated user and
    only after the database counted fewer than 3 of that user's borrows
    with status ["borrowed"]; what it stores is the request's document as
    it is, and the id it returns is the one [create_document] gave for it.
    The [HTTPException]s it raises are 403 "User mismatch" and 400 "Borrow
    limit reached", both before anything is written.  This holds also of
    the executions in which a call to the database raises. *)
Theorem borrow_book_rule (borrow : Borrow.t) (current : document)
  (tr : list event) (o : ending dict) :
  executes (borrow_book borrow current) tr o ->
  (written tr <> [] ->
   Borrow.user_id borrow = _id current /\
   exists active borrow_id rest,
     (active < 3)%Z /\
     tr = Event (count_documents "borrow"
                   [("user_id", VStr (Borrow.user_id borrow));
                    ("status", VStr "borrowed")]) active
          :: Event (create_document "borrow" (MBorrow borrow)) borrow_id
          :: rest) /\
  (forall d, o = Ended (inr d) ->
   exists active borrow_id aid,
     tr = [Event (count_documents "borrow"
                    [("user_id", VStr (Borrow.user_id borrow));
                     ("status", VStr "borrowed")]) active;
           Event (create_document "borrow" (MBorrow borrow)) borrow_id;
           Event (create_document "activity"
                    (MActivity
                       (Activity.mk (Some (_id current)) "borrow"
                          [("book_id", VStr (Borrow.book_id borrow))]))) aid] /\
     d = [("id", VStr borrow_id)]) /\
  (forall r, o = Ended (inl (Http r)) ->
     written tr = [] /\
     (r = HTTPException 403 "User mismatch" \/
      r = HTTPException 400 "Borrow limit reached")).
Proof.
  unfold borrow_book. intros H.
  destruct (String.eqb_spec (Borrow.user_id borrow) (_id current)) as [Hu|Hu];
    cbn [negb] in H.
  - exe_call H;
      [split; [intros Hw; now destruct Hw | split; discriminate]|].
    destruct (Z.leb_spec 3 x) as [Hx|Hx].
    + exe_end H. split; [intros Hw; now destruct Hw|].
      split; [discriminate|]. intros r [= <-]. auto.
    + exe_call H;
        [split; [intros Hw; now destruct Hw | split; discriminate]|].
      split.
      * intros _. split; [assumption|].
        eexists _, _, _. split; [exact Hx | reflexivity].
      * exe_call H; [split; discriminate|].
        exe_end H. split; [|discriminate].
        intros d [= <-]. eexists _, _, _. split; reflexivity.
  - exe_end H. split; [intros Hw; now destruct Hw|].
    split; [discriminate|]. intros r [= <-]. auto.
Qed.

Lemma borrow_book_rule_witness :
  Borrow.user_id (Borrow.mk "b1" "u123" "borrowed" None)
  = _id (Document "u123" []) /\
  exists active borrow_id rest,
    (active < 3)%Z /\
    [Event (count_documents "borrow"
              [("user_id", VStr "u123"); ("status", VStr "borrowed")]) 2%Z;
     Event (create_document "borrow"
              (MBorrow (Borrow.mk "b1" "u123" "borrowed" None))) "w1"]
    = Event (count_documents "borrow"
               [("user_id",
                 VStr (Borrow.user_id (Borrow.mk "b1" "u123" "borrowed" None)));
                ("status", VStr "borrowed")]) active
      :: Event (create_document "borrow"
                  (MBorrow (Borrow.mk "b1" "u123" "borrowed" None))) borrow_id
      :: rest.
Proof.
  refine (proj1 (borrow_book_rule (Borrow.mk "b1" "u123" "borrowed" None)
                   (Document "u123" []) _ CallRaised _) _).
  - vm_compute.
    right. eexists _, _. split; [reflexivity|].
    right. eexists _, _. split; [reflexivity|].
    left. split; reflexivity.
  - vm_compute. discriminate.
Defined.

(** X17.  [return_book] updates a borrow only when the document found under
    the given id carries the authenticated user's id in [user_id]; the
    update sets [status] to ["returned"] and [updated_at] to the clock
    reading, and the answer is [{"returned": True}] whatever the status was
    and whatever [update_one] matched. *)
Theorem return_book_rule (now : datetime) (borrow_id : string)
  (current : document) (tr : list event) (out : exception + dict) :
  runs (return_book now borrow_id current) tr out ->
  written tr <> [] \/ (exists d, out = inr d) ->
  exists o b o' matched aid,
    tr = [Event (ObjectId borrow_id) (Some o);
          Event (find_one "borrow" [("_id", VObjectId o)]) (Some b);
          Event (ObjectId borrow_id) (Some o');
          Event (update_one "borrow" [("_id", VObjectId o')]
                   [("$set", VDict [("status", VStr "returned");
                                    ("updated_at", VDatetime now)])]) matched;
          Event (create_document "activity"
                   (MActivity
                      (Activity.mk (Some (_id current)) "return"
                         [("borrow_id", VStr borrow_id)]))) aid] /\
    doc_get "user_id" b = Some (VStr (_id current)) /\
    out = inr [("returned", VBool true)].
Proof.
  unfold return_book. intros H Hw.
  assert (forall (tr0 : list event) (e : exception),
             written tr0 = [] ->
             written tr0 <> [] \/ (exists d : dict, @inl _ dict e = inr d) ->
             False) as Hno
    by (intros tr0 e E [Hw' | [d Hd]]; [contradiction | discriminate Hd]).
  run_call H. destruct x as [o|];
    [|run_end H; exfalso; eapply Hno; [|exact Hw]; reflexivity].
  run_call H. destruct x as [b|];
    [|run_end H; exfalso; eapply Hno; [|exact Hw]; reflexivity].
  destruct (ne_str (doc_get "user_id" b) (_id current)) eqn:Hn;
    [run_end H; exfalso; eapply Hno; [|exact Hw]; reflexivity|].
  apply ne_str_false in Hn.
  run_call H. destruct x as [o'|];
    [|run_end H; exfalso; eapply Hno; [|exact Hw]; reflexivity].
  run_call H. run_call H. run_end H.
  now exists o, b, o', x, x0.
Qed.

Lemma return_book_rule_witness :
  exists o b o' matched aid,
    [Event (ObjectId "w1") (Some "w1");
     Event (find_one "borrow" [("_id", VObjectId "w1")])
           (Some (Document "w1" [("user_id", VStr "u123");
                                 ("status", VStr "returned")]));
     Event (ObjectId "w1") (Some "w1");
     Event (update_one "borrow" [("_id", VObjectId "w1")]
              [("$set", VDict [("status", VStr "returned");
                               ("updated_at", VDatetime 5%Z)])]) 0%Z;
     Event (create_document "activity"
              (MActivity (Activity.mk (Some "u123") "return"
                            [("borrow_id", VStr "w1")]))) "a1"]
    = [Event (ObjectId "w1") (Some o);
       Event (find_one "borrow" [("_id", VObjectId o)]) (Some b);
       Event (ObjectId "w1") (Some o');
       Event (update_one "borrow" [("_id", VObjectId o')]
                [("$set", VDict [("status", VStr "returned");
                                 ("updated_at", VDatetime 5%Z)])]) matched;
       Event (create_document "activity"
                (MActivity
                   (Activity.mk (Some (_id (Document "u123" []))) "return"
                      [("borrow_id", VStr "w1")]))) aid] /\
    doc_get "user_id" b = Some (VStr (_id (Document "u123" []))) /\
    @inr exception dict [("returned", VBool true)]
    = inr [("returned", VBool true)].
Proof.
  refine (return_book_rule 5%Z "w1" (Document "u123" []) _ _ _ _).
  - vm_compute.
    eexists _, _. split; [reflexivity|].
    eexists _, _. split; [reflexivity|].
    eexists _, _. split; [reflexivity|].
    eexists _, _. split; [reflexivity|].
    eexists _, _. split; [reflexivity|]. split; reflexivity.
  - right. eexists. reflexivity.
Defined.

(** X18.  [get_book] never writes and fails in one way only: an id that
    [ObjectId] refuses and a book that is not found both end in 404
    "Not found"; when it answers, the answer is the document found, with its
    [_id] as text. *)
Theorem get_book_outcomes (book_id : string) (tr : list event)
  (out : exception + dict) :
  runs (get_book book_id) tr out ->
  written tr = [] /\
  (out = inl (Http (HTTPException 404 "Not found")) \/
   exists o b,
     tr = [Event (ObjectId book_id) (Some o);
           Event (find_one "book" [("_id", VObjectId o)]) (Some b)] /\
     out = inr (("_id", VStr (_id b)) :: fields b)).
Proof.
  unfold get_book. intros H.
  cbn [catch pbind perform new_ObjectId] in H.
  run_call H. destruct x as [o|]; cbn [catch pbind] in H.
  - run_call H. destruct x as [b|]; cbn [catch HTTP] in H.
    + run_end H. split; [reflexivity|]. right. now exists o, b.
    + run_end H. auto.
  - run_end H. auto.
Qed.

Lemma get_book_outcomes_witness :
  written [Event (ObjectId "not-an-id") None] = [] /\
  (@inl exception dict (Http (HTTPException 404 "Not found"))
   = inl (Http (HTTPException 404 "Not found")) \/
   exists o b,
     [Event (ObjectId "not-an-id") None]
     = [Event (ObjectId "not-an-id") (Some o);
        Event (find_one "book" [("_id", VObjectId o)]) (Some b)] /\
     @inl exception dict (Http (HTTPException 404 "Not found"))
     = inr (("_id", VStr (_id b)) :: fields b)).
Proof.
  refine (get_book_outcomes "not-an-id" _ _ _).
  vm_compute. eexists _, _. split; [reflexivity|]. split; reflexivity.
Defined.

(** X19.  Outside [get_book] an id that [ObjectId] refuses is not answered
    with an [HTTPException]: for an admin, [update_book] and [delete_book],
    for the reviewing user [add_review], and [return_book] for anyone, let
    [InvalidId] escape, before any call to the database. *)
Theorem invalid_id_escapes (now : datetime) (bad_id : string)
  (payload : UpdateBookPayload.t) (review : Review.t) (current : document) :
  (not_admin current = false ->
   runs (update_book bad_id payload current)
        [Event (ObjectId bad_id) None] (inl InvalidId) /\
   runs (delete_book bad_id current)
        [Event (ObjectId bad_id) None] (inl InvalidId)) /\
  (Review.user_id review = _id current ->
   runs (add_review bad_id review current)
        [Event (ObjectId bad_id) None] (inl InvalidId)) /\
  runs (return_book now bad_id current)
       [Event (ObjectId bad_id) None] (inl InvalidId).
Proof.
  split; [|split].
  - intros Hna. unfold update_book, delete_book. rewrite Hna.
    split; cbn; eexists _, _; (split; [reflexivity|]); now split.
  - intros Hu. unfold add_review. rewrite Hu, String.eqb_refl.
    cbn. eexists _, _. split; [reflexivity|]. now split.
  - unfold return_book. cbn. eexists _, _. split; [reflexivity|]. now split.
Qed.

Lemma invalid_id_escapes_witness :
  runs (delete_book "not-an-id" (Document "u123" [("role", VStr "admin")]))
       [Event (ObjectId "not-an-id") None] (inl InvalidId).
Proof.
  refine (proj2 (proj1 (invalid_id_escapes 0%Z "not-an-id"
    (UpdateBookPayload.mk None None None None None None None None None None)
    (Review.mk "b1" "u123" 5 None)
    (Document "u123" [("role", VStr "admin")])) _)).
  reflexivity.
Defined.

(** X22.  [add_review] stores a review only for the authenticated user and
    only after the database returned the book of the path; what it stores
    is the request's review as it is, whatever [book_id] the review itself
    names, and the id it returns is the one [create_document] gave for it.
    The [HTTPException]s it raises are 403 "User mismatch" and 404 "Book
    not found", both before anything is written.  This holds also of the
    executions in which a call to the database raises. *)
Theorem add_review_rule (book_id : string) (review : Review.t)
  (current : document) (tr : list event) (o : ending dict) :
  executes (add_review book_id review current) tr o ->
  (written tr <> [] ->
   Review.user_id review = _id current /\
   exists oi book rid rest,
     tr = Event (ObjectId book_id) (Some oi)
          :: Event (find_one "book" [("_id", VObjectId oi)]) (Some book)
          :: Event (create_document "review" (MReview review)) rid
          :: rest) /\
  (forall d, o = Ended (inr d) ->
   exists oi book rid aid,
     tr = [Event (ObjectId book_id) (Some oi);
           Event (find_one "book" [("_id", VObjectId oi)]) (Some book);
           Event (create_document "review" (MReview review)) rid;
           Event (create_document "activity"
                    (MActivity
                       (Activity.mk (Some (_id current)) "review"
                          [("book_id", VStr book_id);
                           ("review_id", VStr rid)]))) aid] /\
     d = [("id", VStr rid)]) /\
  (forall r, o = Ended (inl (Http r)) ->
     written tr = [] /\
     (r = HTTPException 403 "User mismatch" \/
      r = HTTPException 404 "Book not found")).
Proof.
  unfold add_review. intros H.
  destruct (String.eqb_spec (Review.user_id review) (_id current)) as [Hu|Hu];
    cbn [negb] in H.
  - exe_call H;
      [split; [intros Hw; now destruct Hw | split; discriminate]|].
    destruct x as [oi|].
    + exe_call H;
        [split; [intros Hw; now destruct Hw | split; discriminate]|].
      destruct x as [book|].
      * exe_call H;
          [split; [intros Hw; now destruct Hw | split; discriminate]|].
        split.
        -- intros _. split; [assumption|]. eexists _, _, _, _. reflexivity.
        -- exe_call H; [split; discriminate|].
           exe_end H. split; [|discriminate].
           intros d [= <-]. eexists _, _, _, _. split; reflexivity.
      * exe_end H. split; [intros Hw; now destruct Hw|].
        split; [discriminate|]. intros r [= <-]. auto.
    + exe_end H. split; [intros Hw; now destruct Hw|].
      split; discriminate.
  - exe_end H. split; [intros Hw; now destruct Hw|].
    split; [discriminate|]. intros r [= <-]. auto.
Qed.

Lemma add_review_rule_witness :
  Review.user_id (Review.mk "another-book" "u123" 5 None)
  = _id (Document "u123" []) /\
  exists oi book rid rest,
    [Event (ObjectId "b1") (Some "b1");
     Event (find_one "book" [("_id", VObjectId "b1")])
           (Some (Document "b1" []));
     Event (create_document "review"
              (MReview (Review.mk "another-book" "u123" 5 None))) "r1"]
    = Event (ObjectId "b1") (Some oi)
      :: Event (find_one "book" [("_id", VObjectId oi)]) (Some book)
      :: Event (create_document "review"
                  (MReview (Review.mk "another-book" "u123" 5 None))) rid
      :: rest.
Proof.
  refine (proj1 (add_review_rule "b1"
                   (Review.mk "another-book" "u123" 5 None)
                   (Document "u123" []) _ CallRaised _) _).
  - vm_compute.
    right. eexists _, _. split; [reflexivity|].
    right. eexists _, _. split; [reflexivity|].
    right. eexists _, _. split; [reflexivity|].
    left. split; reflexivity.
  - vm_compute. discriminate.
Defined.

(** Executing a program against fixed answers gives one of its runs. *)
Lemma exec_runs {A : Type} (env : answers) (p : prog A) :
  runs p (fst (exec env p)) (snd (exec env p)).
Proof.
  induction p as [a|e|X c k IH]; cbn [exec runs]; try now split.
  specialize (IH (env X c)).
  destruct (exec env (k (env X c))) as [tr o].
  eexists _, _. split; [reflexivity | exact IH].
Qed.

(** X23.  [search_books] and [list_reviews] only read: an execution of
    either makes at most one call, a [find] with the query's filter and
    limit as they are, writes nothing and raises no exception of its own
    (an unknown book gives the reviews the database finds, not 404); when it
    returns, it returns the documents found in the order given, each with
    its [_id] as text.  This holds also of the executions in which the call
    raises. *)
Theorem listings_only_read (query : BookQuery.t) (book_id : string)
  (limit : Z) (tr : list event) (o : ending dict) :
  (executes (search_books query) tr o ->
   written tr = [] /\
   (forall e, o <> Ended (inl e)) /\
   (forall d, o = Ended (inr d) ->
    exists docs,
      tr = [Event (find "book" (search_filter query) None
                     (BookQuery.limit query)) docs] /\
      d = items docs)) /\
  (executes (list_reviews book_id limit) tr o ->
   written tr = [] /\
   (forall e, o <> Ended (inl e)) /\
   (forall d, o = Ended (inr d) ->
    exists docs,
      tr = [Event (find "review" [("book_id", VStr book_id)] None limit)
                  docs] /\
      d = items docs)) /\
  (forall docs,
     dict_get "items" (items docs)
     = Some (VList (map (fun d => VDict (("_id", VStr (_id d)) :: fields d))
                        docs))).
Proof.
  split; [|split].
  - unfold search_books. intros H.
    exe_call H; [repeat split; discriminate|].
    exe_end H. repeat split; [discriminate|].
    intros d [= <-]. eexists. split; reflexivity.
  - unfold list_reviews. intros H.
    exe_call H; [repeat split; discriminate|].
    exe_end H. repeat split; [discriminate|].
    intros d [= <-]. eexists. split; reflexivity.
  - reflexivity.
Qed.

Lemma listings_only_read_witness :
  written [Event (find "review" [("book_id", VStr "b1")] None 20%Z) []] = [] /\
  (forall e, @Ended dict (inr (items [])) <> Ended (inl e)) /\
  (forall d, Ended (inr (items [])) = Ended (inr d) ->
   exists docs,
     [Event (find "review" [("book_id", VStr "b1")] None 20%Z) []]
     = [Event (find "review" [("book_id", VStr "b1")] None 20%Z) docs] /\
     d = items docs).
Proof.
  refine (proj1 (proj2 (listings_only_read
    (BookQuery.mk None None None None None 24%Z) "b1" 20%Z _ _)) _).
  vm_compute. right. eexists _, _. split; [reflexivity|]. split; reflexivity.
Defined.
